(** * A prompt-forwarding Lambda handler: model and verified properties

    Shallow embedding of [lambda/lambda_function.py]: the response builder
    [create_response], the request validator [validate_request], the model
    invoker [invoke_bedrock_model] and the entry point [lambda_handler].

    Python objects are modelled by the JSON-shaped type [value]; Python
    exceptions by the error monad [result]; the calls the handler makes to
    its components and to the remote service by a call log (monad [M]).
    The [json] codec, the remote inference service and the deployment
    configuration are parameters of the model (section [Handler]).

    A Python [str] is modelled by a Rocq [string] whose characters are its
    code points (the 8-bit range). *)

From Stdlib Require Import ZArith Ascii String List Bool Lia.
From Stdlib Require Import DecimalString.
From stdpp Require Import base strings gmap.

Open Scope string_scope.
Open Scope Z_scope.

Set Warnings "-register-all".

(** ** Python values *)

(** The objects the handler touches: what [json.loads] can return and what
    [json.dumps] accepts.  A float is identified by its [repr] text.  A dict
    keeps its entries in insertion order, as Python's does. *)
Inductive value : Type :=
  | VNone
  | VBool (b : bool)
  | VInt (n : Z)
  | VFloat (repr : string)
  | VStr (s : string)
  | VList (items : list value)
  | VDict (entries : list (string * value)).

(** ** Exceptions *)

(** The exception classes the source names, and those the operations below
    raise.  All of them derive from [Exception]; [JSONDecodeError] is the
    only one matched by [except json.JSONDecodeError]. *)
Inductive exn : Type :=
  | JSONDecodeError
  | TypeError
  | KeyError
  | IndexError
  | AttributeError
  | ClientError (response : value)
  | BotoCoreError
  | OtherException.

Inductive result (A : Type) : Type :=
  | Ok (a : A)
  | Raise (e : exn).
Arguments Ok {A} a.
Arguments Raise {A} e.

#[global] Instance result_ret : MRet result := fun A a => Ok a.
#[global] Instance result_bind : MBind result := fun A B f m =>
  match m with
  | Ok a => f a
  | Raise e => Raise e
  end.

(** ** Built-in operations on values *)

(** [bool(v)]. *)
Definition truthy (v : value) : bool :=
  match v with
  | VNone => false
  | VBool b => b
  | VInt n => negb (n =? 0)
  | VFloat r => negb (String.eqb r "0.0" || String.eqb r "-0.0")
  | VStr s => negb (String.eqb s EmptyString)
  | VList l => match l with [] => false | _ => true end
  | VDict d => match d with [] => false | _ => true end
  end.

(** Lookup in an insertion-ordered dict. *)
Fixpoint dict_get (d : list (string * value)) (k : string) : option value :=
  match d with
  | [] => None
  | (k', v) :: d' => if String.eqb k' k then Some v else dict_get d' k
  end.

(** [needle in hay] for two strings. *)
Fixpoint str_contains (hay needle : string) : bool :=
  String.prefix needle hay ||
  match hay with
  | EmptyString => false
  | String _ hay' => str_contains hay' needle
  end.

(** [v == s] for a string literal [s]: only an equal [str] compares equal. *)
Definition py_eq_str (v : value) (s : string) : bool :=
  match v with
  | VStr s' => String.eqb s' s
  | _ => false
  end.

(** [k in v] for a string [k]: key membership on a dict, element membership
    on a list, substring test on a string; the other types are not
    iterable. *)
Definition py_contains (v : value) (k : string) : result bool :=
  match v with
  | VDict d => Ok (bool_decide (is_Some (dict_get d k)))
  | VList l => Ok (existsb (fun x => py_eq_str x k) l)
  | VStr s => Ok (str_contains s k)
  | _ => Raise TypeError
  end.

(** [v[k]] for a string [k]: only a dict can be indexed by a string. *)
Definition py_getitem (v : value) (k : string) : result value :=
  match v with
  | VDict d => match dict_get d k with
               | Some x => Ok x
               | None => Raise KeyError
               end
  | _ => Raise TypeError
  end.

(** [v[0]]. *)
Definition py_first (v : value) : result value :=
  match v with
  | VList l => match l with
               | x :: _ => Ok x
               | [] => Raise IndexError
               end
  | VStr s => match s with
              | String c _ => Ok (VStr (String c EmptyString))
              | EmptyString => Raise IndexError
              end
  | VDict _ => Raise KeyError   (* the keys of these dicts are strings *)
  | _ => Raise TypeError
  end.

(** [len(v)]. *)
Definition py_len (v : value) : result nat :=
  match v with
  | VList l => Ok (List.length l)
  | VStr s => Ok (String.length s)
  | VDict d => Ok (List.length d)
  | _ => Raise TypeError
  end.

(** [v.get(k, default)]: a dict method. *)
Definition py_get (v : value) (k : string) (default : value) : result value :=
  match v with
  | VDict d => Ok (from_option id default (dict_get d k))
  | _ => Raise AttributeError
  end.

(** [str.isspace] on one character of the 8-bit range: tab to carriage
    return, the four separators 0x1c-0x1f, space, NEL and no-break space. *)
Definition is_space (c : ascii) : bool :=
  let n := nat_of_ascii c in
  ((9 <=? n) && (n <=? 13) || (28 <=? n) && (n <=? 32) || (n =? 133) || (n =? 160))%nat.

Fixpoint lstrip (s : string) : string :=
  match s with
  | EmptyString => EmptyString
  | String c s' => if is_space c then lstrip s' else s
  end.

Definition rstrip (s : string) : string := String.rev (lstrip (String.rev s)).

(** [s.strip()]. *)
Definition strip (s : string) : string := rstrip (lstrip s).

(** [v.strip()]: a string method. *)
Definition py_strip (v : value) : result string :=
  match v with
  | VStr s => Ok (strip s)
  | _ => Raise AttributeError
  end.

(** ** The call log *)

(** What a run of the handler did besides computing its answer: the
    components it ran and the request it sent to the remote service. *)
Inductive call : Type :=
  | RanValidator (event : gmap string value)
  | RanInvoker (prompt : string)
  | SentRequest (model_id payload : string).

(** A computation: the calls made, in order, and how it ended. *)
Definition M (A : Type) : Type := (list call * result A)%type.

#[global] Instance M_ret : MRet M := fun A a => ([], Ok a).
#[global] Instance M_bind : MBind M := fun A B f m =>
  match m with
  | (t, Ok a) => let (t', r) := f a in ((t ++ t')%list, r)
  | (t, Raise e) => (t, Raise e)
  end.

Definition lift {A} (r : result A) : M A := ([], r).

(** Log a call, then make it. *)
Definition traced {A} (c : call) (m : M A) : M A :=
  let (t, r) := m in (c :: t, r).

(** [try: m except Exception as e: handler e]; an exception raised by the
    handler itself propagates. *)
Definition try_except {A} (m : M A) (handler : exn -> M A) : M A :=
  match m with
  | (t, Ok a) => (t, Ok a)
  | (t, Raise e) => let (t', r) := handler e in ((t ++ t')%list, r)
  end.

(** ** The module [lambda_function] *)

Module lambda_function.

(** The response envelope. *)
Record envelope : Type := Envelope {
  statusCode : Z;
  headers : gmap string string;
  body : string
}.

Section Handler.

(** *** Collaborators *)

(** [json.loads] on a string: the decoded value, [JSONDecodeError] on
    malformed text, or whatever else the decoder raises. *)
Variable json_loads_text : string -> result value.

(** [json.dumps] on a value. *)
Variable json_dumps : value -> string.

(** [str(v)] for a value that is not a string. *)
Variable builtin_str : value -> string.

(** [bedrock_client.invoke_model(modelId=.., body=.., ..)] followed by
    [response['body'].read()]: the payload text, or the exception raised. *)
Variable invoke_model : string -> string -> result string.

(** [os.environ.get('BEDROCK_MODEL_ID', ..)]. *)
Variable BEDROCK_MODEL_ID : string.

(** [json.loads(v)]: anything but text is a [TypeError]. *)
Definition json_loads (v : value) : result value :=
  match v with
  | VStr s => json_loads_text s
  | _ => Raise TypeError
  end.

(** *** [create_response] *)

Definition default_headers : gmap string string :=
  <["Access-Control-Allow-Headers" := "Content-Type, Authorization"]>
  (<["Access-Control-Allow-Methods" := "POST, OPTIONS"]>
  (<["Access-Control-Allow-Origin" := "*"]>
  (<["Content-Type" := "application/json"]> ∅))).

Definition create_response (status_code : Z) (body : value)
    (headers : option (gmap string string)) : envelope :=
  let default_headers :=
    match headers with
    | Some h =>
        if bool_decide (h = ∅) then default_headers   (* [if headers:] *)
        else h ∪ default_headers                       (* [.update(headers)] *)
    | None => default_headers
    end in
  {| statusCode := status_code;
     headers := default_headers;
     body := json_dumps body |}.

(** *** [validate_request] *)

(** The body of the [try] block. *)
Definition validate_request_try (event : gmap string value)
    : result (option string) :=
  match event !! "body" with
  | None => Ok (Some "Request body is required")
  | Some raw =>
      if negb (truthy raw) then Ok (Some "Request body is required")
      else
        match json_loads raw with
        | Raise JSONDecodeError => Ok (Some "Invalid JSON in request body")
        | Raise e => Raise e
        | Ok body =>
            has ← py_contains body "prompt";
            if negb has then Ok (Some "Missing 'prompt' field in request body")
            else
              prompt ← py_getitem body "prompt";
              match prompt with
              | VStr p =>
                  if negb (truthy (VStr (strip p)))
                  then Ok (Some "Prompt cannot be empty")
                  else if (4000 <? String.length p)%nat
                  then Ok (Some "Prompt exceeds maximum length of 4000 characters")
                  else Ok None
              | _ => Ok (Some "Prompt must be a string")
              end
        end
  end.

(** [except Exception] turns any exception into a message. *)
Definition validate_request (event : gmap string value) : option string :=
  match validate_request_try event with
  | Ok r => r
  | Raise _ => Some "Invalid request format"
  end.

(** The value a decoded body holds under key [k], if it is an object that
    has the key. *)
Definition key_value (body : value) (k : string) : option value :=
  match body with
  | VDict d => dict_get d k
  | _ => None
  end.

(** The validator's contract, check by check.  [checks_outcome event r]:
    [r] is the message of the first of the six checks that [event] fails,
    in their order, or [None] when it passes them all. *)
Inductive checks_outcome (event : gmap string value) : option string -> Prop :=
  | body_absent :
      event !! "body" = None ->
      checks_outcome event (Some "Request body is required")
  | body_empty raw :
      event !! "body" = Some raw -> truthy raw = false ->
      checks_outcome event (Some "Request body is required")
  | body_not_json raw e :
      event !! "body" = Some raw -> truthy raw = true ->
      json_loads raw = Raise e ->
      checks_outcome event (Some "Invalid JSON in request body")
  | prompt_missing raw body :
      event !! "body" = Some raw -> truthy raw = true ->
      json_loads raw = Ok body ->
      key_value body "prompt" = None ->
      checks_outcome event (Some "Missing 'prompt' field in request body")
  | prompt_not_string raw body v :
      event !! "body" = Some raw -> truthy raw = true ->
      json_loads raw = Ok body ->
      key_value body "prompt" = Some v ->
      (forall p, v <> VStr p) ->
      checks_outcome event (Some "Prompt must be a string")
  | prompt_blank raw body p :
      event !! "body" = Some raw -> truthy raw = true ->
      json_loads raw = Ok body ->
      key_value body "prompt" = Some (VStr p) ->
      strip p = EmptyString ->
      checks_outcome event (Some "Prompt cannot be empty")
  | prompt_too_long raw body p :
      event !! "body" = Some raw -> truthy raw = true ->
      json_loads raw = Ok body ->
      key_value body "prompt" = Some (VStr p) ->
      strip p <> EmptyString ->
      (4000 < String.length p)%nat ->
      checks_outcome event (Some "Prompt exceeds maximum length of 4000 characters")
  | checks_passed raw body p :
      event !! "body" = Some raw -> truthy raw = true ->
      json_loads raw = Ok body ->
      key_value body "prompt" = Some (VStr p) ->
      strip p <> EmptyString ->
      (String.length p <= 4000)%nat ->
      checks_outcome event None.

(** *** [invoke_bedrock_model] *)

Definition MAX_TOKENS : Z := 4000.
Definition TEMPERATURE : value := VFloat "0.7".

Definition failure (message : string) : value :=
  VDict [("success", VBool false); ("error", VStr message)].

(** A replacement field of an f-string. *)
Definition format_field (v : value) : string :=
  match v with
  | VStr s => s
  | _ => builtin_str v
  end.

Definition request_body (prompt : string) : value :=
  VDict [("anthropic_version", VStr "bedrock-2023-05-31");
         ("max_tokens", VInt MAX_TOKENS);
         ("temperature", TEMPERATURE);
         ("messages",
          VList [VDict [("role", VStr "user"); ("content", VStr prompt)]])].

(** The [try] block from [json.loads(response['body'].read())] on. *)
Definition read_response (response : string) : result value :=
  response_body ← json_loads_text response;
  has_content ← py_contains response_body "content";
  nonempty ←
    (if has_content : bool
     then content ← py_getitem response_body "content";
          n ← py_len content;
          mret (0 <? n)%nat
     else mret false);
  if nonempty : bool
  then
    content ← py_getitem response_body "content";
    item ← py_first content;
    generated_text ← py_getitem item "text";
    usage ← py_get response_body "usage" (VDict []);
    mret (VDict [("success", VBool true);
                 ("response", generated_text);
                 ("model_id", VStr BEDROCK_MODEL_ID);
                 ("usage", usage)])
  else
    mret (failure "Unexpected response format from AI model").

(** The three [except] clauses. *)
Definition except_clauses (e : exn) : result value :=
  match e with
  | ClientError response =>
      error ← py_getitem response "Error";
      error_code ← py_getitem error "Code";
      error' ← py_getitem response "Error";
      error_message ← py_getitem error' "Message";
      if py_eq_str error_code "AccessDeniedException"
      then mret (failure "Access denied to Bedrock model. Please check IAM permissions.")
      else if py_eq_str error_code "ValidationException"
      then mret (failure "Invalid request to Bedrock model.")
      else if py_eq_str error_code "ThrottlingException"
      then mret (failure "Request throttled. Please try again later.")
      else mret (failure ("Bedrock service error: " +:+ format_field error_message))
  | BotoCoreError =>
      mret (failure "Network or configuration error accessing Bedrock service")
  | _ =>
      mret (failure "Internal server error processing AI request")
  end.

Definition invoke_bedrock_model (prompt : string) : M value :=
  try_except
    (let payload := json_dumps (request_body prompt) in
     response ← traced (SentRequest BEDROCK_MODEL_ID payload)
                  (lift (invoke_model BEDROCK_MODEL_ID payload));
     lift (read_response response))
    (fun e => lift (except_clauses e)).

(** *** [lambda_handler] *)

(** [if validation_error:] on an optional string. *)
Definition truthy_opt (o : option string) : bool :=
  match o with
  | Some s => truthy (VStr s)
  | None => false
  end.

Definition message_of (o : option string) : value :=
  match o with
  | Some s => VStr s
  | None => VNone
  end.

(** [event['body']]. *)
Definition event_getitem (event : gmap string value) (k : string)
    : result value :=
  match event !! k with
  | Some v => Ok v
  | None => Raise KeyError
  end.

(** [json.loads(event['body'])] and [body['prompt'].strip()], after
    validation. *)
Definition extract_prompt (event : gmap string value) : result string :=
  raw ← event_getitem event "body";
  body ← json_loads raw;
  p ← py_getitem body "prompt";
  py_strip p.

(** The body of the [try] block.  The [logger] calls are left out: on
    events made of [value]s they return normally, and they play no part
    in the answer. *)
Definition lambda_handler_try (event : gmap string value) : M envelope :=
  if py_eq_str (default VNone (event !! "httpMethod")) "OPTIONS"
  then mret (create_response 200
               (VDict [("message", VStr "CORS preflight successful")]) None)
  else
    validation_error ← traced (RanValidator event)
                         (mret (validate_request event));
    if truthy_opt validation_error
    then mret (create_response 400
                 (VDict [("error", VStr "Bad Request");
                         ("message", message_of validation_error)]) None)
    else
      prompt ← lift (extract_prompt event);
      bedrock_response ← traced (RanInvoker prompt)
                           (invoke_bedrock_model prompt);
      success ← lift (py_getitem bedrock_response "success");
      if truthy success
      then
        lift (response ← py_getitem bedrock_response "response";
              model_id ← py_getitem bedrock_response "model_id";
              usage ← py_get bedrock_response "usage" (VDict []);
              mret (create_response 200
                      (VDict [("message", VStr "Success");
                              ("response", response);
                              ("model_id", model_id);
                              ("usage", usage)]) None))
      else
        lift (error ← py_getitem bedrock_response "error";
              mret (create_response 500
                      (VDict [("error", VStr "Internal Server Error");
                              ("message", error)]) None)).

Definition lambda_handler (event : gmap string value) : M envelope :=
  try_except (lambda_handler_try event)
    (fun e =>
       match e with
       | JSONDecodeError =>
           mret (create_response 400
                   (VDict [("error", VStr "Bad Request");
                           ("message", VStr "Invalid JSON in request body")]) None)
       | _ =>
           mret (create_response 500
                   (VDict [("error", VStr "Internal Server Error");
                           ("message", VStr "An unexpected error occurred")]) None)
       end).

End Handler.

(** *** Auxiliary notions for the proofs *)

(** The result the invoker returns on success. *)
Definition success_result (model_id : string) (text usage : value) : value :=
  VDict [("success", VBool true); ("response", text);
         ("model_id", VStr model_id); ("usage", usage)].

(** How a call of the invoker can end. *)
Inductive invoker_result (model_id : string) : result value -> Prop :=
  | invoker_success text usage :
      invoker_result model_id (Ok (success_result model_id text usage))
  | invoker_failure message :
      invoker_result model_id (Ok (failure message))
  | invoker_raise e :
      e <> JSONDecodeError -> invoker_result model_id (Raise e).

(** What the prompt checks answer once the body has decoded to the object
    with entries [d]. *)
Definition prompt_checks (d : list (string * value)) : option string :=
  match dict_get d "prompt" with
  | None => Some "Missing 'prompt' field in request body"
  | Some (VStr p) =>
      if String.eqb (strip p) EmptyString then Some "Prompt cannot be empty"
      else if (4000 <? String.length p)%nat
      then Some "Prompt exceeds maximum length of 4000 characters"
      else None
  | Some _ => Some "Prompt must be a string"
  end.

End lambda_function.

Import lambda_function.

(** ** A reference JSON codec

    [json.dumps] with its default settings, and [json.loads] on the JSON
    texts whose numbers are integers and whose escapes stay inside the 8-bit
    range.  The properties below hold for any codec; this one serves to run
    the handler on concrete events. *)

Module Json.

Definition quote : ascii := "034"%char.
Definition backslash : ascii := "\"%char.

Definition hex_digit (n : nat) : ascii :=
  ascii_of_nat (if (n <? 10)%nat then 48 + n else 87 + n)%nat.

(** Four hexadecimal digits of an 8-bit code. *)
Definition hex4 (n : nat) : string :=
  String "0" (String "0"
    (String (hex_digit (n / 16)) (String (hex_digit (n mod 16)) EmptyString))).

Definition escape_char (c : ascii) : string :=
  let n := nat_of_ascii c in
  if Ascii.eqb c quote then String backslash (String quote EmptyString)
  else if Ascii.eqb c backslash then String backslash (String backslash EmptyString)
  else if (n =? 10)%nat then String backslash "n"
  else if (n =? 13)%nat then String backslash "r"
  else if (n =? 9)%nat then String backslash "t"
  else if (n =? 8)%nat then String backslash "b"
  else if (n =? 12)%nat then String backslash "f"
  else if ((32 <=? n) && (n <=? 126))%nat then String c EmptyString
  else String backslash (String "u" (hex4 n)).

Fixpoint escape (s : string) : string :=
  match s with
  | EmptyString => EmptyString
  | String c s' => escape_char c +:+ escape s'
  end.

Definition dumps_str (s : string) : string :=
  String quote (escape s +:+ String quote EmptyString).

Definition dumps_int (n : Z) : string :=
  NilZero.string_of_int (Z.to_int n).

Definition dumps_float (repr : string) : string :=
  if String.eqb repr "nan" then "NaN"
  else if String.eqb repr "inf" then "Infinity"
  else if String.eqb repr "-inf" then "-Infinity"
  else repr.

Fixpoint join (sep : string) (l : list string) : string :=
  match l with
  | [] => EmptyString
  | [x] => x
  | x :: l' => x +:+ sep +:+ join sep l'
  end.

Fixpoint dumps (v : value) : string :=
  match v with
  | VNone => "null"
  | VBool true => "true"
  | VBool false => "false"
  | VInt n => dumps_int n
  | VFloat r => dumps_float r
  | VStr s => dumps_str s
  | VList l => "[" +:+ join ", " (map dumps l) +:+ "]"
  | VDict d =>
      "{" +:+ join ", " (map (fun kv => dumps_str (fst kv) +:+ ": " +:+ dumps (snd kv)) d)
          +:+ "}"
  end.

(** *** Decoding *)

Inductive parsed (A : Type) : Type :=
  | Parsed (a : A) (rest : string)
  | Malformed
  | Unsupported.
Arguments Parsed {A} a rest.
Arguments Malformed {A}.
Arguments Unsupported {A}.

Definition is_ws (c : ascii) : bool :=
  let n := nat_of_ascii c in
  ((n =? 32) || (n =? 9) || (n =? 10) || (n =? 13))%nat.

Fixpoint skip_ws (s : string) : string :=
  match s with
  | EmptyString => EmptyString
  | String c s' => if is_ws c then skip_ws s' else s
  end.

Definition digit_of (c : ascii) : option Z :=
  let n := nat_of_ascii c in
  if ((48 <=? n) && (n <=? 57))%nat then Some (Z.of_nat n - 48) else None.

Definition hex_of (c : ascii) : option nat :=
  let n := nat_of_ascii c in
  if ((48 <=? n) && (n <=? 57))%nat then Some (n - 48)%nat
  else if ((97 <=? n) && (n <=? 102))%nat then Some (n - 87)%nat
  else if ((65 <=? n) && (n <=? 70))%nat then Some (n - 55)%nat
  else None.

Definition hex4_of (a b c d : ascii) : option nat :=
  match hex_of a, hex_of b, hex_of c, hex_of d with
  | Some x, Some y, Some z, Some w => Some (((x * 16 + y) * 16 + z) * 16 + w)%nat
  | _, _, _, _ => None
  end.

Definition unescape (c : ascii) : option ascii :=
  let n := nat_of_ascii c in
  if Ascii.eqb c quote then Some quote
  else if Ascii.eqb c backslash then Some backslash
  else if Ascii.eqb c "/" then Some "/"%char
  else if Ascii.eqb c "b" then Some (ascii_of_nat 8)
  else if Ascii.eqb c "f" then Some (ascii_of_nat 12)
  else if Ascii.eqb c "n" then Some (ascii_of_nat 10)
  else if Ascii.eqb c "r" then Some (ascii_of_nat 13)
  else if Ascii.eqb c "t" then Some (ascii_of_nat 9)
  else None.

(** The characters of a string literal after its opening quote; [acc]
    holds the decoded characters, last first. *)
Fixpoint parse_chars (s : string) (acc : string) : parsed string :=
  match s with
  | EmptyString => Malformed
  | String c s' =>
      if Ascii.eqb c quote then Parsed (String.rev acc) s'
      else if Ascii.eqb c backslash then
        match s' with
        | String "u" (String h1 (String h2 (String h3 (String h4 r)))) =>
            match hex4_of h1 h2 h3 h4 with
            | Some n => if (n <? 256)%nat
                        then parse_chars r (String (ascii_of_nat n) acc)
                        else Unsupported
            | None => Malformed
            end
        | String e r =>
            match unescape e with
            | Some c' => parse_chars r (String c' acc)
            | None => Malformed
            end
        | EmptyString => Malformed
        end
      else if (nat_of_ascii c <? 32)%nat then Malformed
      else parse_chars s' (String c acc)
  end.

Fixpoint parse_digits (s : string) (acc : Z) : Z * string :=
  match s with
  | EmptyString => (acc, s)
  | String c s' =>
      match digit_of c with
      | Some d => parse_digits s' (10 * acc + d)
      | None => (acc, s)
      end
  end.

Definition starts_with_digit (s : string) : bool :=
  match s with
  | String c _ => bool_decide (is_Some (digit_of c))
  | EmptyString => false
  end.

(** Does a fraction or an exponent follow the integer part? *)
Definition float_follows (s : string) : bool :=
  match s with
  | String "." r => starts_with_digit r
  | String c r =>
      if Ascii.eqb c "e" || Ascii.eqb c "E" then
        match r with
        | String "+" r' | String "-" r' => starts_with_digit r'
        | _ => starts_with_digit r
        end
      else false
  | EmptyString => false
  end.

(** The integer part of a number, sign apart. *)
Definition parse_natural (s : string) : parsed Z :=
  match s with
  | String c r =>
      match digit_of c with
      | Some 0 => Parsed 0 r
      | Some d => let (n, r') := parse_digits r d in Parsed n r'
      | None => Malformed
      end
  | EmptyString => Malformed
  end.

Definition parse_number (s : string) : parsed value :=
  let (negative, digits) :=
    match s with
    | String "-" r => (true, r)
    | _ => (false, s)
    end in
  match parse_natural digits with
  | Parsed n r =>
      if float_follows r then Unsupported
      else Parsed (VInt (if negative then - n else n)) r
  | Malformed => Malformed
  | Unsupported => Unsupported
  end.

Definition parse_word (word : string) (v : value) (s : string) : option (parsed value) :=
  if String.prefix word s
  then Some (Parsed v (String.substring (String.length word)
                         (String.length s - String.length word) s))
  else None.

Definition parse_scalar (s : string) : parsed value :=
  match parse_word "null" VNone s with Some p => p | None =>
  match parse_word "true" (VBool true) s with Some p => p | None =>
  match parse_word "false" (VBool false) s with Some p => p | None =>
  match parse_number s with
  | Parsed v r => Parsed v r
  | Unsupported => Unsupported
  | Malformed =>
      match parse_word "NaN" (VFloat "nan") s with Some p => p | None =>
      match parse_word "Infinity" (VFloat "inf") s with Some p => p | None =>
      match parse_word "-Infinity" (VFloat "-inf") s with Some p => p | None =>
      Malformed
      end end end
  end end end end.

(** [d[k] = v]: replace in place, or append. *)
Fixpoint dict_set (d : list (string * value)) (k : string) (v : value)
    : list (string * value) :=
  match d with
  | [] => [(k, v)]
  | (k', v') :: d' =>
      if String.eqb k' k then (k', v) :: d' else (k', v') :: dict_set d' k v
  end.

Fixpoint parse_value (fuel : nat) (s : string) : parsed value :=
  match fuel with
  | O => Unsupported
  | S fuel' =>
      match s with
      | String c r =>
          if Ascii.eqb c quote then
            match parse_chars r EmptyString with
            | Parsed str r' => Parsed (VStr str) r'
            | Malformed => Malformed
            | Unsupported => Unsupported
            end
          else if Ascii.eqb c "[" then
            match skip_ws r with
            | String "]" r' => Parsed (VList []) r'
            | r' => parse_elements fuel' r' []
            end
          else if Ascii.eqb c "{" then
            match skip_ws r with
            | String "}" r' => Parsed (VDict []) r'
            | r' => parse_members fuel' r' []
            end
          else parse_scalar s
      | EmptyString => Malformed
      end
  end
with parse_elements (fuel : nat) (s : string) (acc : list value) : parsed value :=
  match fuel with
  | O => Unsupported
  | S fuel' =>
      match parse_value fuel' s with
      | Parsed v r =>
          match skip_ws r with
          | String "," r' => parse_elements fuel' (skip_ws r') (v :: acc)
          | String "]" r' => Parsed (VList (rev (v :: acc))) r'
          | _ => Malformed
          end
      | Malformed => Malformed
      | Unsupported => Unsupported
      end
  end
with parse_members (fuel : nat) (s : string) (acc : list (string * value))
    : parsed value :=
  match fuel with
  | O => Unsupported
  | S fuel' =>
      match s with
      | String c r =>
          if Ascii.eqb c quote then
            match parse_chars r EmptyString with
            | Parsed k r1 =>
                match skip_ws r1 with
                | String ":" r2 =>
                    match parse_value fuel' (skip_ws r2) with
                    | Parsed v r3 =>
                        match skip_ws r3 with
                        | String "," r4 =>
                            parse_members fuel' (skip_ws r4) (dict_set acc k v)
                        | String "}" r4 => Parsed (VDict (dict_set acc k v)) r4
                        | _ => Malformed
                        end
                    | Malformed => Malformed
                    | Unsupported => Unsupported
                    end
                | _ => Malformed
                end
            | Malformed => Malformed
            | Unsupported => Unsupported
            end
          else Malformed
      | EmptyString => Malformed
      end
  end.

Definition loads (s : string) : result value :=
  match parse_value (2 * String.length s + 2) (skip_ws s) with
  | Parsed v r =>
      match skip_ws r with
      | EmptyString => Ok v
      | _ => Raise JSONDecodeError
      end
  | Malformed => Raise JSONDecodeError
  | Unsupported => Raise OtherException
  end.

End Json.

(** ** A reference [str]

    [str(v)] on a value: the text itself for a string, [repr(v)] otherwise. *)

Module Repr.

Definition apostrophe : ascii := "'"%char.

Fixpoint has_char (c : ascii) (s : string) : bool :=
  match s with
  | EmptyString => false
  | String c' s' => Ascii.eqb c' c || has_char c s'
  end.

(** [str.isprintable] on one character of the 8-bit range. *)
Definition printable (c : ascii) : bool :=
  let n := nat_of_ascii c in
  ((32 <=? n) && (n <=? 126) || (161 <=? n) && (n <=? 172) || (174 <=? n))%nat.

Definition hex2 (n : nat) : string :=
  String (Json.hex_digit (n / 16)) (String (Json.hex_digit (n mod 16)) EmptyString).

Definition repr_char (q c : ascii) : string :=
  let n := nat_of_ascii c in
  if Ascii.eqb c q || Ascii.eqb c Json.backslash
  then String Json.backslash (String c EmptyString)
  else if (n =? 9)%nat then String Json.backslash "t"
  else if (n =? 10)%nat then String Json.backslash "n"
  else if (n =? 13)%nat then String Json.backslash "r"
  else if printable c then String c EmptyString
  else String Json.backslash (String "x" (hex2 n)).

Fixpoint repr_chars (q : ascii) (s : string) : string :=
  match s with
  | EmptyString => EmptyString
  | String c s' => repr_char q c +:+ repr_chars q s'
  end.

(** Single quotes, unless the text has one and has no double quote. *)
Definition repr_str (s : string) : string :=
  let q := if has_char apostrophe s && negb (has_char Json.quote s)
           then Json.quote else apostrophe in
  String q (repr_chars q s +:+ String q EmptyString).

Fixpoint repr (v : value) : string :=
  match v with
  | VNone => "None"
  | VBool true => "True"
  | VBool false => "False"
  | VInt n => Json.dumps_int n
  | VFloat r => r
  | VStr s => repr_str s
  | VList l => "[" +:+ Json.join ", " (map repr l) +:+ "]"
  | VDict d =>
      "{" +:+ Json.join ", " (map (fun kv => repr_str (fst kv) +:+ ": " +:+ repr (snd kv)) d)
          +:+ "}"
  end.

Definition str (v : value) : string :=
  match v with
  | VStr s => s
  | _ => repr v
  end.

End Repr.

(** ** Concrete collaborators and events *)

Module Examples.

Definition model_id : string := "anthropic.claude-3-5-haiku-20241022-v1:0".

(** A remote service that answers with the JSON text of [v]. *)
Definition replies (v : value) : string -> string -> result string :=
  fun _ _ => Ok (Json.dumps v).

(** A remote service whose call raises [e]. *)
Definition fails (e : exn) : string -> string -> result string :=
  fun _ _ => Raise e.

Definition validate (event : gmap string value) : option string :=
  validate_request Json.loads event.

Definition invoker (remote : string -> string -> result string)
    (prompt : string) : M value :=
  invoke_bedrock_model Json.loads Json.dumps Repr.str remote model_id prompt.

Definition handler (remote : string -> string -> result string)
    (event : gmap string value) : M envelope :=
  lambda_handler Json.loads Json.dumps Repr.str remote model_id event.

(** A POST whose body is the JSON text of [v]. *)
Definition post (v : value) : gmap string value :=
  {[ "httpMethod" := VStr "POST"; "body" := VStr (Json.dumps v) ]}.

Definition post_prompt (prompt : string) : gmap string value :=
  post (VDict [("prompt", VStr prompt)]).

(** [c * n]. *)
Fixpoint replicate_char (n : nat) (c : ascii) : string :=
  match n with
  | O => EmptyString
  | S n' => String c (replicate_char n' c)
  end.

(** A body that is the JSON number 5. *)
Definition number_body : gmap string value := {[ "body" := VStr "5" ]}.

(** A body handed over as an object instead of as text. *)
Definition object_body : gmap string value :=
  {[ "body" := VDict [("prompt", VStr "Hello")] ]}.

Definition hello_reply : value :=
  VDict [("content", VList [VDict [("text", VStr "Hello! How can I help you today?")]]);
         ("usage", VDict [("input_tokens", VInt 10); ("output_tokens", VInt 15)])].

Definition no_content_reply : value := VDict [("content", VList [])].

Definition service_error (code message : string) : exn :=
  ClientError (VDict [("Error", VDict [("Message", VStr message); ("Code", VStr code)])]).

Definition preflight : gmap string value :=
  {[ "httpMethod" := VStr "OPTIONS"; "body" := VStr "not json" ]}.

End Examples.

(** ** Further notions for the proofs *)

(** The messages the validator can return. *)
Definition validation_messages : list string :=
  [ "Request body is required";
    "Invalid JSON in request body";
    "Missing 'prompt' field in request body";
    "Prompt must be a string";
    "Prompt cannot be empty";
    "Prompt exceeds maximum length of 4000 characters";
    "Invalid request format" ].

(** The decoded bodies on which ['prompt' not in body] or [body['prompt']]
    raises: [None], booleans and numbers are not iterable; a list that has
    the element ['prompt'] and a string that has it as a substring pass the
    membership test and cannot be indexed by a string. *)
Definition prompt_lookup_raises (body : value) : bool :=
  match body with
  | VDict _ => false
  | VList l => existsb (fun x => py_eq_str x "prompt") l
  | VStr s => str_contains s "prompt"
  | _ => true
  end.

(** The decoded bodies for which ['prompt' not in body] holds. *)
Definition prompt_absent (body : value) : bool :=
  match body with
  | VDict d => bool_decide (dict_get d "prompt" = None)
  | VList l => negb (existsb (fun x => py_eq_str x "prompt") l)
  | VStr s => negb (str_contains s "prompt")
  | _ => false
  end.

Definition starts_with_space (s : string) : bool :=
  match s with
  | String c _ => is_space c
  | EmptyString => false
  end.

Definition ends_with_space (s : string) : bool :=
  starts_with_space (String.rev s).

(** A service error whose response has no usable "Error" entry: the entry
    is missing, or it is an object without "Code" or without "Message". *)
Definition incomplete_error (response : list (string * value)) : Prop :=
  dict_get response "Error" = None \/
  exists error,
    dict_get response "Error" = Some (VDict error) /\
    (dict_get error "Code" = None \/ dict_get error "Message" = None).

(** [None], booleans and numbers. *)
Definition is_scalar (v : value) : bool :=
  match v with
  | VNone | VBool _ | VInt _ | VFloat _ => true
  | _ => false
  end.

(** The exceptions the built-in operations on values raise. *)
Definition builtin_error (e : exn) : bool :=
  match e with
  | TypeError | KeyError | IndexError | AttributeError => true
  | _ => false
  end.

(** The exceptions that reach the last [except] clause of the invoker. *)
Definition other_exception (e : exn) : bool :=
  match e with
  | ClientError _ | BotoCoreError => false
  | _ => true
  end.

(** ** More concrete collaborators and events *)

Module MoreExamples.

(** The response of a service error that names a known code and has no
    message. *)
Definition error_without_message : list (string * value) :=
  [("Error", VDict [("Code", VStr "AccessDeniedException")])].

(** A reply whose first content item is a text, not an object. *)
Definition bare_text_reply : value :=
  VDict [("content", VList [VStr "Hello!"])].

End MoreExamples.

(** ** Facts about the built-in operations *)

Lemma rev_app_length (s acc : string) :
  String.length (String.rev_app s acc) = (String.length s + String.length acc)%nat.
Proof.
  revert acc. induction s as [|c s IH]; intros acc; simpl.
  - reflexivity.
  - rewrite IH. simpl. lia.
Qed.

Lemma rev_length (s : string) : String.length (String.rev s) = String.length s.
Proof. unfold String.rev. rewrite rev_app_length. simpl. lia. Qed.

Lemma lstrip_length (s : string) : (String.length (lstrip s) <= String.length s)%nat.
Proof.
  induction s as [|c s IH]; simpl.
  - lia.
  - destruct (is_space c); simpl; lia.
Qed.

Lemma strip_length (s : string) : (String.length (strip s) <= String.length s)%nat.
Proof.
  unfold strip, rstrip. rewrite rev_length.
  etransitivity; [apply lstrip_length|].
  rewrite rev_length. apply lstrip_length.
Qed.

Section Properties.

Set Default Proof Using "Type".

Variable json_loads_text : string -> result value.
Variable json_dumps : value -> string.
Variable builtin_str : value -> string.
Variable invoke_model : string -> string -> result string.
Variable BEDROCK_MODEL_ID : string.

Local Abbreviation json_loads := (json_loads json_loads_text).
Local Abbreviation validate_request_try := (validate_request_try json_loads_text).
Local Abbreviation validate_request := (validate_request json_loads_text).
Local Abbreviation checks_outcome := (checks_outcome json_loads_text).
Local Abbreviation extract_prompt := (extract_prompt json_loads_text).
Local Abbreviation create_response := (create_response json_dumps).
Local Abbreviation read_response :=
  (read_response json_loads_text BEDROCK_MODEL_ID).
Local Abbreviation except_clauses := (except_clauses builtin_str).
Local Abbreviation invoker_result := (invoker_result BEDROCK_MODEL_ID).
Local Abbreviation success_result := (success_result BEDROCK_MODEL_ID).
Local Abbreviation sent prompt :=
  (SentRequest BEDROCK_MODEL_ID (json_dumps (request_body prompt))).
Local Abbreviation remote prompt :=
  (invoke_model BEDROCK_MODEL_ID (json_dumps (request_body prompt))).
Local Abbreviation not_preflight ev :=
  (py_eq_str (default VNone (ev !! "httpMethod")) "OPTIONS" = false).
Local Abbreviation invoke_bedrock_model :=
  (invoke_bedrock_model json_loads_text json_dumps builtin_str invoke_model
     BEDROCK_MODEL_ID).
Local Abbreviation lambda_handler_try :=
  (lambda_handler_try json_loads_text json_dumps builtin_str invoke_model
     BEDROCK_MODEL_ID).
Local Abbreviation lambda_handler :=
  (lambda_handler json_loads_text json_dumps builtin_str invoke_model
     BEDROCK_MODEL_ID).

(** *** The validator *)

Lemma validate_request_object ev raw d :
  ev !! "body" = Some raw -> truthy raw = true ->
  json_loads raw = Ok (VDict d) ->
  validate_request ev = prompt_checks d.
Proof.
  intros Hb Ht Hl.
  unfold lambda_function.validate_request, lambda_function.validate_request_try, prompt_checks.
  rewrite Hb, Ht, Hl. simpl.
  destruct (dict_get d "prompt") as [v|] eqn:Hp; simpl; [|reflexivity].
  destruct v as [| b | n | r | s | items | entries]; try reflexivity.
  rewrite negb_involutive.
  destruct (String.eqb (strip s) EmptyString); simpl; [reflexivity|].
  destruct (4000 <? String.length s)%nat; reflexivity.
Qed.

Lemma validate_request_no_body ev :
  ev !! "body" = None -> validate_request ev = Some "Request body is required".
Proof.
  intros Hb. unfold lambda_function.validate_request, lambda_function.validate_request_try.
  rewrite Hb. reflexivity.
Qed.

Lemma validate_request_empty_body ev raw :
  ev !! "body" = Some raw -> truthy raw = false ->
  validate_request ev = Some "Request body is required".
Proof.
  intros Hb Ht. unfold lambda_function.validate_request, lambda_function.validate_request_try.
  rewrite Hb, Ht. reflexivity.
Qed.

Lemma validate_request_raise ev raw e :
  ev !! "body" = Some raw -> truthy raw = true ->
  json_loads raw = Raise e ->
  validate_request ev =
    Some (match e with
          | JSONDecodeError => "Invalid JSON in request body"
          | _ => "Invalid request format"
          end).
Proof.
  intros Hb Ht Hl. unfold lambda_function.validate_request, lambda_function.validate_request_try.
  rewrite Hb, Ht, Hl. destruct e; reflexivity.
Qed.

(** Only a string key of a dict can be both a member and an index. *)
Lemma validate_request_not_object ev raw body :
  ev !! "body" = Some raw -> truthy raw = true ->
  json_loads raw = Ok body ->
  (forall d, body <> VDict d) ->
  validate_request ev = Some "Invalid request format" \/
  validate_request ev = Some "Missing 'prompt' field in request body".
Proof.
  intros Hb Ht Hl Hd. unfold lambda_function.validate_request, lambda_function.validate_request_try.
  rewrite Hb, Ht, Hl.
  destruct body as [| b | n | r | s | items | entries]; simpl; auto.
  - destruct (str_contains s "prompt"); simpl; auto.
  - destruct (existsb _ items); simpl; auto.
  - destruct (Hd entries). reflexivity.
Qed.

Lemma prompt_checks_None d :
  prompt_checks d = None ->
  exists p, dict_get d "prompt" = Some (VStr p) /\ strip p <> EmptyString /\
            (String.length p <= 4000)%nat.
Proof.
  unfold prompt_checks.
  destruct (dict_get d "prompt") as [[| b | n | r | s | items | entries]|];
    try discriminate.
  destruct (String.eqb (strip s) EmptyString) eqn:He; try discriminate.
  destruct (4000 <? String.length s)%nat eqn:Hlen; try discriminate.
  intros _. exists s. split; [reflexivity|]. split.
  - apply String.eqb_neq. exact He.
  - apply Nat.ltb_ge. exact Hlen.
Qed.

Lemma validate_request_None ev :
  validate_request ev = None ->
  exists s d p,
    ev !! "body" = Some (VStr s) /\ json_loads_text s = Ok (VDict d) /\
    dict_get d "prompt" = Some (VStr p) /\ strip p <> EmptyString /\
    (String.length p <= 4000)%nat.
Proof.
  intros Hv.
  destruct (ev !! "body") as [raw|] eqn:Hb.
  2: { rewrite (validate_request_no_body _ Hb) in Hv. discriminate. }
  destruct (truthy raw) eqn:Ht.
  2: { rewrite (validate_request_empty_body _ _ Hb Ht) in Hv. discriminate. }
  destruct (json_loads raw) as [body|e] eqn:Hl.
  2: { rewrite (validate_request_raise _ _ _ Hb Ht Hl) in Hv. discriminate. }
  assert (exists d, body = VDict d) as [d ->].
  { destruct body; eauto;
      destruct (validate_request_not_object _ _ _ Hb Ht Hl) as [H|H];
      try discriminate; congruence. }
  rewrite (validate_request_object _ _ _ Hb Ht Hl) in Hv.
  destruct (prompt_checks_None _ Hv) as (p & Hp & Hs & Hlen).
  destruct raw as [| b | n | r | s | items | entries]; try discriminate.
  exists s, d, p. auto.
Qed.

Lemma validate_request_message ev m :
  validate_request ev = Some m -> truthy (VStr m) = true.
Proof.
  intros Hv.
  destruct (ev !! "body") as [raw|] eqn:Hb.
  2: { rewrite (validate_request_no_body _ Hb) in Hv. by simplify_eq. }
  destruct (truthy raw) eqn:Ht.
  2: { rewrite (validate_request_empty_body _ _ Hb Ht) in Hv. by simplify_eq. }
  destruct (json_loads raw) as [body|e] eqn:Hl.
  2: { rewrite (validate_request_raise _ _ _ Hb Ht Hl) in Hv.
       simplify_eq. by destruct e. }
  destruct body;
    try (destruct (validate_request_not_object _ _ _ Hb Ht Hl) as [H|H];
         [discriminate| |]; rewrite H in Hv; by simplify_eq).
  rewrite (validate_request_object _ _ _ Hb Ht Hl) in Hv.
  unfold prompt_checks in Hv.
  repeat case_match; by simplify_eq.
Qed.

(** *** [create_response] *)

(** C9.  The envelope built by [create_response] passes the status code
    through and serialises the body; without caller headers it carries
    exactly the four default headers; with caller headers each key reads
    the caller's value if the caller supplied one and the default
    otherwise. *)
Theorem create_response_envelope (status_code : Z) (body : value) :
  (forall hs, statusCode (create_response status_code body hs) = status_code) /\
  (forall hs, lambda_function.body (create_response status_code body hs)
              = json_dumps body) /\
  headers (create_response status_code body None) = default_headers /\
  (forall (h : gmap string string) (k : string),
      headers (create_response status_code body (Some h)) !! k =
        match h !! k with
        | Some v => Some v
        | None => default_headers !! k
        end) /\
  default_headers !! "Content-Type" = Some "application/json" /\
  default_headers !! "Access-Control-Allow-Origin" = Some "*" /\
  default_headers !! "Access-Control-Allow-Methods" = Some "POST, OPTIONS" /\
  default_headers !! "Access-Control-Allow-Headers"
    = Some "Content-Type, Authorization" /\
  size default_headers = 4%nat.
Proof.
  repeat split; try reflexivity.
  intros h k. unfold lambda_function.create_response. simpl.
  case_bool_decide as Hempty.
  - subst h. rewrite lookup_empty. reflexivity.
  - rewrite lookup_union. destruct (h !! k), (default_headers !! k); reflexivity.
Qed.

(** *** The six checks *)

(** C2 (amended).  When the body, if present and non-empty, either fails
    to decode with a JSON decode error or decodes to an object, the
    validator answers with the message of the first failing check, in
    the listed order, and with [None] when all six pass; a prompt that
    is blank after trimming is rejected as empty whatever its length. *)
Theorem validate_request_checks_in_order (ev : gmap string value) :
  (forall raw, ev !! "body" = Some raw -> truthy raw = true ->
     json_loads raw = Raise JSONDecodeError \/
     exists d, json_loads raw = Ok (VDict d)) ->
  checks_outcome ev (validate_request ev) /\
  (forall raw d p,
     ev !! "body" = Some raw -> truthy raw = true ->
     json_loads raw = Ok (VDict d) ->
     dict_get d "prompt" = Some (VStr p) ->
     strip p = EmptyString ->
     validate_request ev = Some "Prompt cannot be empty").
Proof.
  intros Hdec. split.
  - destruct (ev !! "body") as [raw|] eqn:Hb.
    2: { rewrite (validate_request_no_body _ Hb). by apply body_absent. }
    destruct (truthy raw) eqn:Ht.
    2: { rewrite (validate_request_empty_body _ _ Hb Ht).
         by eapply body_empty. }
    destruct (Hdec raw eq_refl Ht) as [Hl|[d Hl]].
    { rewrite (validate_request_raise _ _ _ Hb Ht Hl).
      by eapply body_not_json. }
    rewrite (validate_request_object _ _ _ Hb Ht Hl). unfold prompt_checks.
    destruct (dict_get d "prompt") as [v|] eqn:Hp.
    2: { by eapply prompt_missing. }
    destruct v as [| b | n | r | p | items | entries];
      try (by eapply prompt_not_string).
    destruct (String.eqb (strip p) EmptyString) eqn:He.
    { apply String.eqb_eq in He. by eapply prompt_blank. }
    apply String.eqb_neq in He.
    destruct (4000 <? String.length p)%nat eqn:Hlen.
    + apply Nat.ltb_lt in Hlen. by eapply prompt_too_long.
    + apply Nat.ltb_ge in Hlen. by eapply checks_passed.
  - intros raw d p Hb Ht Hl Hp He.
    rewrite (validate_request_object _ _ _ Hb Ht Hl). unfold prompt_checks.
    rewrite Hp, He. reflexivity.
Qed.

(** C6 (amended).  When decoding a present, non-empty body raises, the
    validator answers "Invalid JSON in request body" for a JSON decode
    error and "Invalid request format" for any other exception. *)
Theorem validate_request_undecodable (ev : gmap string value) raw e :
  ev !! "body" = Some raw -> truthy raw = true ->
  json_loads raw = Raise e ->
  validate_request ev =
    Some (match e with
          | JSONDecodeError => "Invalid JSON in request body"
          | _ => "Invalid request format"
          end).
Proof.
  intros Hb Ht Hl.
  unfold lambda_function.validate_request, lambda_function.validate_request_try.
  rewrite Hb, Ht, Hl.
  destruct e as [| | | | | response | |]; reflexivity.
Qed.

(** C7.  A string prompt that is not blank after trimming is rejected
    for its length exactly when its untrimmed length exceeds 4000; at
    4000 characters or fewer it passes. *)
Theorem prompt_length_limit (ev : gmap string value) raw d p :
  ev !! "body" = Some raw -> truthy raw = true ->
  json_loads raw = Ok (VDict d) ->
  dict_get d "prompt" = Some (VStr p) ->
  strip p <> EmptyString ->
  (validate_request ev = Some "Prompt exceeds maximum length of 4000 characters"
     <-> (4000 < String.length p)%nat) /\
  ((String.length p <= 4000)%nat -> validate_request ev = None).
Proof.
  intros Hb Ht Hl Hp Hs.
  rewrite (validate_request_object _ _ _ Hb Ht Hl). unfold prompt_checks.
  rewrite Hp. apply String.eqb_neq in Hs. rewrite Hs.
  destruct (4000 <? String.length p)%nat eqn:Hlen.
  - apply Nat.ltb_lt in Hlen. split.
    + split; [intros _; exact Hlen | reflexivity].
    + intros Hle. exfalso. apply (Nat.lt_irrefl 4000). eapply Nat.lt_le_trans; eassumption.
  - apply Nat.ltb_ge in Hlen. split; [|reflexivity].
    split; [discriminate|].
    intros Hlt. exfalso. apply (Nat.lt_irrefl 4000). eapply Nat.lt_le_trans; eassumption.
Qed.

(** *** The invoker *)

Lemma invoke_bedrock_model_eq prompt :
  invoke_bedrock_model prompt =
    ([sent prompt],
     match remote prompt with
     | Ok raw => match read_response raw with
                 | Ok v => Ok v
                 | Raise e => except_clauses e
                 end
     | Raise e => except_clauses e
     end).
Proof.
  unfold lambda_function.invoke_bedrock_model, try_except, traced, lift.
  unfold mbind, M_bind.
  destruct (remote prompt) as [raw|e]; simpl; [|reflexivity].
  destruct (read_response raw); reflexivity.
Qed.

Lemma read_response_content raw rb item rest text :
  json_loads_text raw = Ok (VDict rb) ->
  dict_get rb "content" = Some (VList (VDict item :: rest)) ->
  dict_get item "text" = Some text ->
  read_response raw =
    Ok (success_result text (default (VDict []) (dict_get rb "usage"))).
Proof.
  intros Hl Hc Ht. unfold lambda_function.read_response.
  rewrite Hl. simpl. rewrite Hc. simpl. rewrite Ht. reflexivity.
Qed.

Lemma read_response_no_content raw rb :
  json_loads_text raw = Ok (VDict rb) ->
  dict_get rb "content" = None \/ dict_get rb "content" = Some (VList []) ->
  read_response raw = Ok (failure "Unexpected response format from AI model").
Proof.
  intros Hl Hc. unfold lambda_function.read_response.
  rewrite Hl. simpl. destruct Hc as [-> | ->]; reflexivity.
Qed.

Lemma read_response_result raw v :
  read_response raw = Ok v -> invoker_result (Ok v).
Proof.
  unfold lambda_function.read_response.
  destruct (json_loads_text raw) as [rb|]; simpl; [|discriminate].
  destruct (py_contains rb "content") as [[]|] eqn:Hin; simpl; try discriminate.
  - destruct (py_getitem rb "content") as [c|]; simpl; [|discriminate].
    destruct (py_len c) as [n|]; simpl; [|discriminate].
    destruct (0 <? n)%nat; simpl.
    + destruct (py_first c) as [item|]; simpl; [|discriminate].
      destruct (py_getitem item "text") as [text|]; simpl; [|discriminate].
      destruct (py_get rb "usage" (VDict [])) as [usage|]; simpl; [|discriminate].
      intros [= <-]. apply invoker_success.
    + intros [= <-]. apply invoker_failure.
  - intros [= <-]. apply invoker_failure.
Qed.

Lemma py_getitem_raise v k e :
  py_getitem v k = Raise e -> e <> JSONDecodeError.
Proof.
  destruct v as [| b | n | r | s | items | entries]; simpl;
    try (intros [= <-]; discriminate).
  destruct (dict_get entries k); [discriminate|]. intros [= <-]. discriminate.
Qed.

Lemma except_clauses_result e : invoker_result (except_clauses e).
Proof.
  destruct e as [| | | | | response | |]; simpl; try apply invoker_failure.
  destruct (py_getitem response "Error") as [err|e1] eqn:H1; simpl.
  2: { apply invoker_raise. by eapply py_getitem_raise. }
  destruct (py_getitem err "Code") as [code|e2] eqn:H2; simpl.
  2: { apply invoker_raise. by eapply py_getitem_raise. }
  destruct (py_getitem err "Message") as [msg|e3] eqn:H3; simpl.
  2: { apply invoker_raise. by eapply py_getitem_raise. }
  repeat case_match; apply invoker_failure.
Qed.

Lemma invoke_bedrock_model_result prompt :
  invoker_result (snd (invoke_bedrock_model prompt)).
Proof.
  rewrite invoke_bedrock_model_eq. simpl.
  destruct (remote prompt) as [raw|e]; [|apply except_clauses_result].
  destruct (read_response raw) as [v|e] eqn:Hr.
  - by eapply read_response_result.
  - apply except_clauses_result.
Qed.

(** *** The handler *)

Lemma lambda_handler_try_preflight ev :
  py_eq_str (default VNone (ev !! "httpMethod")) "OPTIONS" = true ->
  lambda_handler_try ev =
    ([], Ok (create_response 200
               (VDict [("message", VStr "CORS preflight successful")]) None)).
Proof.
  intros H. unfold lambda_function.lambda_handler_try. rewrite H. reflexivity.
Qed.

Lemma lambda_handler_try_rejected ev m :
  not_preflight ev -> validate_request ev = Some m ->
  lambda_handler_try ev =
    ([RanValidator ev],
     Ok (create_response 400
           (VDict [("error", VStr "Bad Request"); ("message", VStr m)]) None)).
Proof.
  intros H Hv. unfold lambda_function.lambda_handler_try. rewrite H, Hv.
  unfold mbind, M_bind, traced, mret, M_ret, truthy_opt.
  rewrite (validate_request_message _ _ Hv). reflexivity.
Qed.

Lemma extract_prompt_valid ev s d p :
  ev !! "body" = Some (VStr s) -> json_loads_text s = Ok (VDict d) ->
  dict_get d "prompt" = Some (VStr p) ->
  extract_prompt ev = Ok (strip p).
Proof.
  intros Hb Hl Hp. unfold lambda_function.extract_prompt, event_getitem.
  rewrite Hb. simpl. rewrite Hl. simpl. rewrite Hp. reflexivity.
Qed.

(** After a successful validation the handler runs the invoker once, on
    the extracted prompt, and answers according to its result. *)
Lemma lambda_handler_try_valid ev prompt :
  not_preflight ev -> validate_request ev = None ->
  extract_prompt ev = Ok prompt ->
  lambda_handler_try ev =
    ([RanValidator ev; RanInvoker prompt; sent prompt],
     match snd (invoke_bedrock_model prompt) with
     | Ok bedrock_response =>
         success ← py_getitem bedrock_response "success";
         if truthy success
         then
           response ← py_getitem bedrock_response "response";
           model_id ← py_getitem bedrock_response "model_id";
           usage ← py_get bedrock_response "usage" (VDict []);
           mret (create_response 200
                   (VDict [("message", VStr "Success");
                           ("response", response);
                           ("model_id", model_id);
                           ("usage", usage)]) None)
         else
           error ← py_getitem bedrock_response "error";
           mret (create_response 500
                   (VDict [("error", VStr "Internal Server Error");
                           ("message", error)]) None)
     | Raise e => Raise e
     end).
Proof.
  intros H Hv Hx. unfold lambda_function.lambda_handler_try.
  rewrite H, Hv, Hx.
  unfold mbind at 1 2 3 4. unfold M_bind, traced, lift, mret, M_ret. simpl.
  rewrite invoke_bedrock_model_eq.
  match goal with |- context [([sent prompt], ?r)] => generalize r end.
  intros [v|e]; [|reflexivity]. simpl.
  destruct (py_getitem v "success") as [success|]; simpl; [|reflexivity].
  destruct (truthy success); reflexivity.
Qed.

Lemma lambda_handler_try_success ev prompt text usage :
  not_preflight ev -> validate_request ev = None ->
  extract_prompt ev = Ok prompt ->
  snd (invoke_bedrock_model prompt) = Ok (success_result text usage) ->
  lambda_handler_try ev =
    ([RanValidator ev; RanInvoker prompt; sent prompt],
     Ok (create_response 200
           (VDict [("message", VStr "Success"); ("response", text);
                   ("model_id", VStr BEDROCK_MODEL_ID); ("usage", usage)])
           None)).
Proof.
  intros H Hv Hx Hi. rewrite (lambda_handler_try_valid _ _ H Hv Hx), Hi.
  reflexivity.
Qed.

Lemma lambda_handler_try_failure ev prompt message :
  not_preflight ev -> validate_request ev = None ->
  extract_prompt ev = Ok prompt ->
  snd (invoke_bedrock_model prompt) = Ok (failure message) ->
  lambda_handler_try ev =
    ([RanValidator ev; RanInvoker prompt; sent prompt],
     Ok (create_response 500
           (VDict [("error", VStr "Internal Server Error");
                   ("message", VStr message)]) None)).
Proof.
  intros H Hv Hx Hi. rewrite (lambda_handler_try_valid _ _ H Hv Hx), Hi.
  reflexivity.
Qed.

Lemma lambda_handler_try_raise ev prompt e :
  not_preflight ev -> validate_request ev = None ->
  extract_prompt ev = Ok prompt ->
  snd (invoke_bedrock_model prompt) = Raise e ->
  lambda_handler_try ev =
    ([RanValidator ev; RanInvoker prompt; sent prompt], Raise e).
Proof.
  intros H Hv Hx Hi. rewrite (lambda_handler_try_valid _ _ H Hv Hx), Hi.
  reflexivity.
Qed.

Lemma lambda_handler_ok ev t env :
  lambda_handler_try ev = (t, Ok env) -> lambda_handler ev = (t, Ok env).
Proof.
  intros H. unfold lambda_function.lambda_handler, try_except. rewrite H.
  reflexivity.
Qed.

Lemma lambda_handler_raise ev t e :
  lambda_handler_try ev = (t, Raise e) -> e <> JSONDecodeError ->
  lambda_handler ev =
    (t, Ok (create_response 500
              (VDict [("error", VStr "Internal Server Error");
                      ("message", VStr "An unexpected error occurred")])
              None)).
Proof.
  intros H He. unfold lambda_function.lambda_handler, try_except. rewrite H.
  destruct e; try (destruct He; reflexivity);
    simpl; rewrite app_nil_r; reflexivity.
Qed.

(** The [except] clauses of the handler make no call. *)
Lemma lambda_handler_calls ev :
  fst (lambda_handler ev) = fst (lambda_handler_try ev).
Proof.
  unfold lambda_function.lambda_handler, try_except.
  destruct (lambda_handler_try ev) as [t [env|e]]; [reflexivity|].
  destruct e; simpl; apply app_nil_r.
Qed.

(** The outcomes of the [try] block: an envelope with one of the three
    status codes, or an exception other than a JSON decode error. *)
Lemma lambda_handler_try_result ev :
  (exists status_code body,
      snd (lambda_handler_try ev) = Ok (create_response status_code body None) /\
      (status_code = 200 \/ status_code = 400 \/ status_code = 500)) \/
  (exists e, snd (lambda_handler_try ev) = Raise e /\ e <> JSONDecodeError).
Proof.
  destruct (py_eq_str (default VNone (ev !! "httpMethod")) "OPTIONS") eqn:H.
  { rewrite (lambda_handler_try_preflight _ H). left. eauto 6. }
  destruct (validate_request ev) as [m|] eqn:Hv.
  { rewrite (lambda_handler_try_rejected _ _ H Hv). left. eauto 6. }
  destruct (validate_request_None _ Hv) as (s & d & p & Hb & Hl & Hp & _).
  pose proof (extract_prompt_valid _ _ _ _ Hb Hl Hp) as Hx.
  pose proof (invoke_bedrock_model_result (strip p)) as Hr.
  inversion Hr as [text usage Hi | message Hi | e He Hi]; symmetry in Hi.
  - rewrite (lambda_handler_try_success _ _ _ _ H Hv Hx Hi). left. eauto 6.
  - rewrite (lambda_handler_try_failure _ _ _ H Hv Hx Hi). left. eauto 6.
  - rewrite (lambda_handler_try_raise _ _ _ H Hv Hx Hi). right. eauto.
Qed.

(** C1.  For every event the handler returns an envelope, built by
    [create_response] with status 200, 400 or 500, and raises nothing:
    when the [try] block yields an envelope, that envelope is the answer;
    when it raises, the answer is the 500 envelope "Internal Server
    Error" / "An unexpected error occurred". *)
Theorem lambda_handler_always_responds (ev : gmap string value) :
  (exists t status_code body,
      lambda_handler ev = (t, Ok (create_response status_code body None)) /\
      (status_code = 200 \/ status_code = 400 \/ status_code = 500)) /\
  match lambda_handler_try ev with
  | (t, Ok env) => lambda_handler ev = (t, Ok env)
  | (t, Raise _) =>
      lambda_handler ev =
        (t, Ok (create_response 500
                  (VDict [("error", VStr "Internal Server Error");
                          ("message", VStr "An unexpected error occurred")])
                  None))
  end.
Proof.
  pose proof (lambda_handler_try_result ev) as Hr.
  destruct (lambda_handler_try ev) as [t [env|e]] eqn:Htry; simpl in Hr.
  - rewrite (lambda_handler_ok _ _ _ Htry). split; [|reflexivity].
    destruct Hr as [(sc & b & [= ->] & Hsc) | (e & [=] & _)]. eauto 6.
  - destruct Hr as [(sc & b & [=] & _) | (e' & [= <-] & He)].
    rewrite (lambda_handler_raise _ _ _ Htry He).
    split; [|reflexivity]. exists t, 500. eauto 6.
Qed.

(** C8.  An event whose method is OPTIONS is answered 200 with the body
    "CORS preflight successful", whatever else it holds, and the call log
    is empty: neither the validator nor the invoker ran. *)
Theorem preflight_short_circuit (ev : gmap string value) :
  ev !! "httpMethod" = Some (VStr "OPTIONS") ->
  lambda_handler ev =
    ([], Ok (create_response 200
               (VDict [("message", VStr "CORS preflight successful")]) None)).
Proof.
  intros H. apply lambda_handler_ok, lambda_handler_try_preflight.
  rewrite H. reflexivity.
Qed.

(** C10.  If the validator accepts an event, its body is a text that
    decodes to an object whose "prompt" is a string, not blank after
    trimming and at most 4000 characters long before (hence after)
    trimming; the handler's own extraction of the prompt then succeeds
    with the trimmed prompt, and - unless the event is a preflight - the
    handler runs the validator, then the invoker on the trimmed prompt,
    which sends one request carrying it. *)
Theorem accepted_event_has_prompt (ev : gmap string value) :
  validate_request ev = None ->
  exists s d p,
    ev !! "body" = Some (VStr s) /\
    json_loads_text s = Ok (VDict d) /\
    dict_get d "prompt" = Some (VStr p) /\
    strip p <> EmptyString /\
    (String.length p <= 4000)%nat /\
    (String.length (strip p) <= 4000)%nat /\
    extract_prompt ev = Ok (strip p) /\
    (not_preflight ev ->
     fst (lambda_handler ev) =
       [RanValidator ev; RanInvoker (strip p); sent (strip p)]).
Proof.
  intros Hv.
  destruct (validate_request_None _ Hv) as (s & d & p & Hb & Hl & Hp & Hs & Hlen).
  pose proof (extract_prompt_valid _ _ _ _ Hb Hl Hp) as Hx.
  exists s, d, p. repeat (split; [assumption|]).
  split. { etransitivity; [apply strip_length|exact Hlen]. }
  split; [exact Hx|].
  intros H.
  rewrite lambda_handler_calls, (lambda_handler_try_valid _ _ H Hv Hx).
  reflexivity.
Qed.

(** C3.  When the remote response decodes to an object whose content
    list starts with an object holding a text, the invoker returns the
    success result with that text, the configured model identifier and
    the response's usage entry (an empty mapping when there is none); and
    the handler, on an accepted event carrying that prompt, answers 200
    with message "Success" and the same text, model identifier and
    usage. *)
Theorem success_from_first_content_item prompt raw rb item rest text :
  remote prompt = Ok raw ->
  json_loads_text raw = Ok (VDict rb) ->
  dict_get rb "content" = Some (VList (VDict item :: rest)) ->
  dict_get item "text" = Some text ->
  let usage := default (VDict []) (dict_get rb "usage") in
  invoke_bedrock_model prompt =
    ([sent prompt],
     Ok (VDict [("success", VBool true); ("response", text);
                ("model_id", VStr BEDROCK_MODEL_ID); ("usage", usage)])) /\
  forall ev : gmap string value,
    not_preflight ev -> validate_request ev = None ->
    extract_prompt ev = Ok prompt ->
    lambda_handler ev =
      ([RanValidator ev; RanInvoker prompt; sent prompt],
       Ok (create_response 200
             (VDict [("message", VStr "Success"); ("response", text);
                     ("model_id", VStr BEDROCK_MODEL_ID); ("usage", usage)])
             None)).
Proof.
  intros Hr Hl Hc Ht usage.
  assert (invoke_bedrock_model prompt =
            ([sent prompt], Ok (success_result text usage))) as Hi.
  { rewrite invoke_bedrock_model_eq, Hr.
    rewrite (read_response_content _ _ _ _ _ Hl Hc Ht). reflexivity. }
  split; [exact Hi|].
  intros ev H Hv Hx. apply lambda_handler_ok.
  apply lambda_handler_try_success; try assumption.
  rewrite Hi. reflexivity.
Qed.

(** C4 (amended).  When the remote call raises a service error whose
    "Error" entry holds both a code and a message, the invoker raises
    nothing and returns a failure whose message is fixed by the code for
    the three known codes and is "Bedrock service error: " followed by
    the service's message for any other code. *)
Theorem service_error_messages prompt response error code message :
  remote prompt = Raise (ClientError response) ->
  py_getitem response "Error" = Ok error ->
  py_getitem error "Code" = Ok (VStr code) ->
  py_getitem error "Message" = Ok (VStr message) ->
  (exists v, invoke_bedrock_model prompt = ([sent prompt], Ok v)) /\
  (code = "AccessDeniedException" ->
   invoke_bedrock_model prompt =
     ([sent prompt],
      Ok (failure "Access denied to Bedrock model. Please check IAM permissions."))) /\
  (code = "ValidationException" ->
   invoke_bedrock_model prompt =
     ([sent prompt], Ok (failure "Invalid request to Bedrock model."))) /\
  (code = "ThrottlingException" ->
   invoke_bedrock_model prompt =
     ([sent prompt], Ok (failure "Request throttled. Please try again later."))) /\
  (code <> "AccessDeniedException" -> code <> "ValidationException" ->
   code <> "ThrottlingException" ->
   invoke_bedrock_model prompt =
     ([sent prompt], Ok (failure ("Bedrock service error: " +:+ message)))).
Proof.
  intros Hr He Hc Hm. rewrite invoke_bedrock_model_eq, Hr.
  unfold lambda_function.except_clauses. rewrite He. simpl.
  rewrite Hc. simpl. rewrite Hm. simpl.
  split.
  { repeat case_match; eauto. }
  split; [intros ->; reflexivity|].
  split; [intros ->; reflexivity|].
  split; [intros ->; reflexivity|].
  intros H1 H2 H3.
  apply String.eqb_neq in H1, H2, H3. rewrite H1, H2, H3. reflexivity.
Qed.

(** C5 (amended).  When the remote response decodes to an object with no
    content entry or an empty content list, the invoker returns the
    two-entry failure result - success false, error "Unexpected response
    format from AI model" - and the handler, on an accepted event
    carrying that prompt, answers 500 "Internal Server Error" with that
    message. *)
Theorem failure_on_empty_content prompt raw rb :
  remote prompt = Ok raw ->
  json_loads_text raw = Ok (VDict rb) ->
  dict_get rb "content" = None \/ dict_get rb "content" = Some (VList []) ->
  invoke_bedrock_model prompt =
    ([sent prompt],
     Ok (VDict [("success", VBool false);
                ("error", VStr "Unexpected response format from AI model")])) /\
  forall ev : gmap string value,
    not_preflight ev -> validate_request ev = None ->
    extract_prompt ev = Ok prompt ->
    lambda_handler ev =
      ([RanValidator ev; RanInvoker prompt; sent prompt],
       Ok (create_response 500
             (VDict [("error", VStr "Internal Server Error");
                     ("message", VStr "Unexpected response format from AI model")])
             None)).
Proof.
  intros Hr Hl Hc.
  assert (invoke_bedrock_model prompt =
            ([sent prompt],
             Ok (failure "Unexpected response format from AI model"))) as Hi.
  { rewrite invoke_bedrock_model_eq, Hr.
    rewrite (read_response_no_content _ _ Hl Hc). reflexivity. }
  split; [exact Hi|].
  intros ev H Hv Hx. apply lambda_handler_ok.
  apply lambda_handler_try_failure; try assumption.
  rewrite Hi. reflexivity.
Qed.

End Properties.

(** ** The properties on concrete events *)

Import Examples.

Lemma validate_request_checks_in_order_witness :
  checks_outcome Json.loads (post_prompt (replicate_char 5000 " "))
    (validate (post_prompt (replicate_char 5000 " "))) /\
  validate (post_prompt (replicate_char 5000 " ")) = Some "Prompt cannot be empty".
Proof.
  destruct (validate_request_checks_in_order Json.loads
              (post_prompt (replicate_char 5000 " "))) as [Hchecks Hblank].
  - intros raw Hb Ht. right. vm_compute in Hb. injection Hb as <-.
    eexists. vm_compute. reflexivity.
  - split; [exact Hchecks|].
    apply (Hblank (VStr (Json.dumps (VDict [("prompt", VStr (replicate_char 5000 " "))])))
                  [("prompt", VStr (replicate_char 5000 " "))]
                  (replicate_char 5000 " ")).
    + vm_compute. reflexivity.
    + reflexivity.
    + vm_compute. reflexivity.
    + reflexivity.
    + vm_compute. reflexivity.
Defined.

(** C2, as stated, fails: a body that is the JSON number 5 passes the first
    two checks, yet the answer is neither [None] nor the message of any of
    the six checks. *)
Lemma number_body_escapes_checks :
  ~ checks_outcome Json.loads number_body (validate number_body).
Proof.
  assert (validate number_body = Some "Invalid request format") as ->
    by (vm_compute; reflexivity).
  intros H. inversion H.
Qed.

Lemma validate_request_undecodable_witness :
  validate (<["body" := VStr "invalid json"]> ∅) = Some "Invalid JSON in request body".
Proof.
  apply (validate_request_undecodable Json.loads _ (VStr "invalid json") JSONDecodeError).
  - vm_compute. reflexivity.
  - reflexivity.
  - vm_compute. reflexivity.
Defined.

(** C6, as stated, fails: a body handed over as an object is present and
    non-empty and cannot be decoded, yet the answer is not "Invalid JSON in
    request body". *)
Lemma object_body_not_invalid_json :
  ~ (forall raw e,
       object_body !! "body" = Some raw -> truthy raw = true ->
       json_loads Json.loads raw = Raise e ->
       validate object_body = Some "Invalid JSON in request body").
Proof.
  intros H.
  specialize (H (VDict [("prompt", VStr "Hello")]) TypeError).
  assert (validate object_body = Some "Invalid request format") as Hv
    by (vm_compute; reflexivity).
  rewrite Hv in H. discriminate H; reflexivity.
Qed.

Lemma prompt_length_limit_witness :
  (validate (post_prompt (replicate_char 4000 "a"))
     = Some "Prompt exceeds maximum length of 4000 characters"
   <-> (4000 < String.length (replicate_char 4000 "a"))%nat) /\
  ((String.length (replicate_char 4000 "a") <= 4000)%nat ->
   validate (post_prompt (replicate_char 4000 "a")) = None).
Proof.
  eapply (prompt_length_limit Json.loads (post_prompt (replicate_char 4000 "a"))).
  - vm_compute. reflexivity.
  - reflexivity.
  - vm_compute. reflexivity.
  - reflexivity.
  - vm_compute. discriminate.
Defined.

(** C1 at work on an escaping exception: a service error without an
    "Error" entry makes the invoker raise [KeyError]; the handler answers
    500. *)
Example unexpected_error_is_answered :
  handler (fails (ClientError (VDict []))) (post_prompt "Hello") =
    ([RanValidator (post_prompt "Hello"); RanInvoker "Hello";
      SentRequest model_id (Json.dumps (request_body "Hello"))],
     Ok (create_response Json.dumps 500
           (VDict [("error", VStr "Internal Server Error");
                   ("message", VStr "An unexpected error occurred")]) None)).
Proof. vm_compute. reflexivity. Qed.

Lemma success_from_first_content_item_witness :
  invoker (replies hello_reply) "Hello" =
    ([SentRequest model_id (Json.dumps (request_body "Hello"))],
     Ok (VDict [("success", VBool true);
                ("response", VStr "Hello! How can I help you today?");
                ("model_id", VStr model_id);
                ("usage", VDict [("input_tokens", VInt 10);
                                 ("output_tokens", VInt 15)])])) /\
  handler (replies hello_reply) (post_prompt "  Hello ") =
    ([RanValidator (post_prompt "  Hello "); RanInvoker "Hello";
      SentRequest model_id (Json.dumps (request_body "Hello"))],
     Ok (create_response Json.dumps 200
           (VDict [("message", VStr "Success");
                   ("response", VStr "Hello! How can I help you today?");
                   ("model_id", VStr model_id);
                   ("usage", VDict [("input_tokens", VInt 10);
                                    ("output_tokens", VInt 15)])]) None)).
Proof.
  destruct (success_from_first_content_item Json.loads Json.dumps Repr.str
              (replies hello_reply) model_id "Hello"
              (Json.dumps hello_reply)
              [("content", VList [VDict [("text", VStr "Hello! How can I help you today?")]]);
               ("usage", VDict [("input_tokens", VInt 10); ("output_tokens", VInt 15)])]
              [("text", VStr "Hello! How can I help you today?")] []
              (VStr "Hello! How can I help you today?")) as [Hi Hh].
  - reflexivity.
  - vm_compute. reflexivity.
  - reflexivity.
  - reflexivity.
  - split; [exact Hi|]. apply Hh; vm_compute; reflexivity.
Defined.

Lemma service_error_messages_witness :
  invoker (fails (service_error "ThrottlingException" "Rate exceeded")) "Hello" =
    ([SentRequest model_id (Json.dumps (request_body "Hello"))],
     Ok (failure "Request throttled. Please try again later.")) /\
  invoker (fails (service_error "ServiceUnavailableException" "Try later")) "Hello" =
    ([SentRequest model_id (Json.dumps (request_body "Hello"))],
     Ok (failure "Bedrock service error: Try later")).
Proof.
  split.
  - refine (proj1 (proj2 (proj2 (proj2
      (service_error_messages Json.loads Json.dumps Repr.str
         (fails (service_error "ThrottlingException" "Rate exceeded")) model_id
         "Hello" _ _ "ThrottlingException" "Rate exceeded" _ _ _ _)))) _);
      reflexivity.
  - refine (proj2 (proj2 (proj2 (proj2
      (service_error_messages Json.loads Json.dumps Repr.str
         (fails (service_error "ServiceUnavailableException" "Try later")) model_id
         "Hello" _ _ "ServiceUnavailableException" "Try later" _ _ _ _)))) _ _ _);
      first [reflexivity | discriminate].
Defined.

(** C4, as stated, fails: a service error that carries the known code
    "AccessDeniedException" and no message does not make the invoker
    return a failure; reading the missing message raises [KeyError],
    which leaves the invoker. *)
Lemma known_code_without_message_raises :
  ~ (forall error code,
       py_getitem (VDict MoreExamples.error_without_message) "Error" = Ok error ->
       py_getitem error "Code" = Ok (VStr code) ->
       exists message,
         snd (invoker (fails (ClientError (VDict MoreExamples.error_without_message)))
                "Hello") = Ok (failure message)).
Proof.
  intros H.
  destruct (H (VDict [("Code", VStr "AccessDeniedException")])
              "AccessDeniedException" eq_refl eq_refl) as [message Hm].
  vm_compute in Hm. discriminate Hm.
Qed.

Lemma failure_on_empty_content_witness :
  handler (replies no_content_reply) (post_prompt "Hello") =
    ([RanValidator (post_prompt "Hello"); RanInvoker "Hello";
      SentRequest model_id (Json.dumps (request_body "Hello"))],
     Ok (create_response Json.dumps 500
           (VDict [("error", VStr "Internal Server Error");
                   ("message", VStr "Unexpected response format from AI model")])
           None)).
Proof.
  refine (proj2 (failure_on_empty_content Json.loads Json.dumps Repr.str
                   (replies no_content_reply) model_id "Hello"
                   (Json.dumps no_content_reply) [("content", VList [])] _ _ _)
            (post_prompt "Hello") _ _ _).
  - reflexivity.
  - vm_compute. reflexivity.
  - right. reflexivity.
  - vm_compute. reflexivity.
  - vm_compute. reflexivity.
  - vm_compute. reflexivity.
Defined.

(** C5, as stated, fails: the result returned for a response without
    content items has no category. *)
Lemma failure_has_no_category :
  ~ exists d,
      snd (invoker (replies no_content_reply) "Hello") = Ok (VDict d) /\
      dict_get d "category" = Some (VStr "unexpected_format").
Proof.
  intros (d & Hd & Hc). vm_compute in Hd. injection Hd as <-.
  vm_compute in Hc. discriminate Hc.
Qed.

Lemma preflight_short_circuit_witness :
  handler (replies hello_reply) preflight =
    ([], Ok (create_response Json.dumps 200
               (VDict [("message", VStr "CORS preflight successful")]) None)).
Proof.
  apply (preflight_short_circuit Json.loads Json.dumps Repr.str
           (replies hello_reply) model_id preflight).
  vm_compute. reflexivity.
Defined.

Lemma accepted_event_has_prompt_witness :
  exists s d p,
    post_prompt "  Hello " !! "body" = Some (VStr s) /\
    Json.loads s = Ok (VDict d) /\
    dict_get d "prompt" = Some (VStr p) /\
    strip p <> EmptyString /\
    (String.length p <= 4000)%nat /\
    (String.length (strip p) <= 4000)%nat /\
    extract_prompt Json.loads (post_prompt "  Hello ") = Ok (strip p) /\
    (py_eq_str (default VNone (post_prompt "  Hello " !! "httpMethod")) "OPTIONS" = false ->
     fst (handler (replies hello_reply) (post_prompt "  Hello ")) =
       [RanValidator (post_prompt "  Hello "); RanInvoker (strip p);
        SentRequest model_id (Json.dumps (request_body (strip p)))]).
Proof.
  apply (accepted_event_has_prompt Json.loads Json.dumps Repr.str
           (replies hello_reply) model_id (post_prompt "  Hello ")).
  vm_compute. reflexivity.
Defined.

(** ** The repository's unit tests, run on the model *)

Module Tests.

Example test_create_response_basic :
  let response := create_response Json.dumps 200 (VDict [("message", VStr "success")]) None in
  statusCode response = 200 /\
  headers response !! "Content-Type" = Some "application/json" /\
  headers response !! "Access-Control-Allow-Origin" = Some "*" /\
  (Json.loads (body response) ≫= fun b => py_getitem b "message") = Ok (VStr "success").
Proof. vm_compute. repeat split. Qed.

Example test_create_response_with_custom_headers :
  let response :=
    create_response Json.dumps 201 (VDict [("data", VStr "test")])
      (Some {[ "X-Custom-Header" := "test-value" ]}) in
  statusCode response = 201 /\
  headers response !! "X-Custom-Header" = Some "test-value" /\
  headers response !! "Content-Type" = Some "application/json".
Proof. vm_compute. repeat split. Qed.

Example test_validate_request_valid :
  validate {[ "body" := VStr (Json.dumps (VDict [("prompt", VStr "Hello, how are you?")])) ]}
    = None.
Proof. vm_compute. reflexivity. Qed.

Example test_validate_request_missing_body :
  validate ∅ = Some "Request body is required".
Proof. vm_compute. reflexivity. Qed.

Example test_validate_request_empty_body :
  validate {[ "body" := VStr EmptyString ]} = Some "Request body is required".
Proof. vm_compute. reflexivity. Qed.

Example test_validate_request_invalid_json :
  validate {[ "body" := VStr "invalid json" ]} = Some "Invalid JSON in request body".
Proof. vm_compute. reflexivity. Qed.

Example test_validate_request_missing_prompt :
  validate {[ "body" := VStr (Json.dumps (VDict [("message", VStr "hello")])) ]}
    = Some "Missing 'prompt' field in request body".
Proof. vm_compute. reflexivity. Qed.

Example test_validate_request_non_string_prompt :
  validate {[ "body" := VStr (Json.dumps (VDict [("prompt", VInt 123)])) ]}
    = Some "Prompt must be a string".
Proof. vm_compute. reflexivity. Qed.

Example test_validate_request_empty_prompt :
  validate {[ "body" := VStr (Json.dumps (VDict [("prompt", VStr "   ")])) ]}
    = Some "Prompt cannot be empty".
Proof. vm_compute. reflexivity. Qed.

Example test_validate_request_long_prompt :
  validate {[ "body" := VStr (Json.dumps (VDict [("prompt", VStr (replicate_char 4001 "a"))])) ]}
    = Some "Prompt exceeds maximum length of 4000 characters".
Proof. vm_compute. reflexivity. Qed.

Example test_invoke_bedrock_model_success :
  snd (invoker (replies hello_reply) "Hello") =
    Ok (VDict [("success", VBool true);
               ("response", VStr "Hello! How can I help you today?");
               ("model_id", VStr "anthropic.claude-3-5-haiku-20241022-v1:0");
               ("usage", VDict [("input_tokens", VInt 10); ("output_tokens", VInt 15)])]).
Proof. vm_compute. reflexivity. Qed.

Example test_invoke_bedrock_model_access_denied :
  snd (invoker (fails (service_error "AccessDeniedException" "Access denied")) "Hello") =
    Ok (failure "Access denied to Bedrock model. Please check IAM permissions.").
Proof. vm_compute. reflexivity. Qed.

Example test_invoke_bedrock_model_throttling :
  snd (invoker (fails (service_error "ThrottlingException" "Request throttled")) "Hello") =
    Ok (failure "Request throttled. Please try again later.").
Proof. vm_compute. reflexivity. Qed.

Example test_invoke_bedrock_model_validation_error :
  snd (invoker (fails (service_error "ValidationException" "Invalid request")) "Hello") =
    Ok (failure "Invalid request to Bedrock model.").
Proof. vm_compute. reflexivity. Qed.

Example test_invoke_bedrock_model_botocore_error :
  snd (invoker (fails BotoCoreError) "Hello") =
    Ok (failure "Network or configuration error accessing Bedrock service").
Proof. vm_compute. reflexivity. Qed.

Example test_invoke_bedrock_model_unexpected_response_format :
  snd (invoker (replies (VDict [("unexpected_field", VStr "value")])) "Hello") =
    Ok (failure "Unexpected response format from AI model").
Proof. vm_compute. reflexivity. Qed.

Example test_lambda_handler_options_request :
  snd (handler (replies hello_reply) {[ "httpMethod" := VStr "OPTIONS" ]}) =
    Ok (create_response Json.dumps 200
          (VDict [("message", VStr "CORS preflight successful")]) None).
Proof. vm_compute. reflexivity. Qed.

Example test_lambda_handler_invalid_request :
  snd (handler (replies hello_reply) {[ "body" := VStr "invalid json" ]}) =
    Ok (create_response Json.dumps 400
          (VDict [("error", VStr "Bad Request");
                  ("message", VStr "Invalid JSON in request body")]) None).
Proof. vm_compute. reflexivity. Qed.

Example test_lambda_handler_success :
  snd (handler (replies hello_reply) (post_prompt "Hello")) =
    Ok (create_response Json.dumps 200
          (VDict [("message", VStr "Success");
                  ("response", VStr "Hello! How can I help you today?");
                  ("model_id", VStr model_id);
                  ("usage", VDict [("input_tokens", VInt 10);
                                   ("output_tokens", VInt 15)])]) None).
Proof. vm_compute. reflexivity. Qed.

Example test_lambda_handler_bedrock_failure :
  snd (handler (fails (service_error "AccessDeniedException" "Access denied"))
         (post_prompt "Hello")) =
    Ok (create_response Json.dumps 500
          (VDict [("error", VStr "Internal Server Error");
                  ("message",
                   VStr "Access denied to Bedrock model. Please check IAM permissions.")])
          None).
Proof. vm_compute. reflexivity. Qed.

(** The body is the text [{"prompt": "Hello"] without its closing brace. *)
Example test_lambda_handler_json_decode_error :
  let text := Json.dumps (VDict [("prompt", VStr "Hello")]) in
  let truncated := String.substring 0 (String.length text - 1) text in
  snd (handler (replies hello_reply)
         {[ "httpMethod" := VStr "POST"; "body" := VStr truncated ]}) =
    Ok (create_response Json.dumps 400
          (VDict [("error", VStr "Bad Request");
                  ("message", VStr "Invalid JSON in request body")]) None).
Proof. vm_compute. reflexivity. Qed.

End Tests.

(** ** More facts about strings *)

Lemma string_append_cons (c : ascii) (a b : string) :
  String c a +:+ b = String c (a +:+ b).
Proof. reflexivity. Qed.

Lemma string_append_nil_r (s : string) : s +:+ EmptyString = s.
Proof.
  induction s as [|c s IH]; [reflexivity|]. by rewrite string_append_cons, IH.
Qed.

Lemma string_append_assoc (a b c : string) : (a +:+ b) +:+ c = a +:+ (b +:+ c).
Proof.
  induction a as [|x a IH]; [reflexivity|]. by rewrite !string_append_cons, IH.
Qed.

Lemma string_rev_app_append (s acc : string) :
  String.rev_app s acc = String.rev s +:+ acc.
Proof.
  unfold String.rev. revert acc.
  induction s as [|c s IH]; intros acc; simpl; [reflexivity|].
  rewrite (IH (String c acc)), (IH (String c EmptyString)).
  rewrite string_append_assoc. reflexivity.
Qed.

Lemma string_rev_cons (c : ascii) (s : string) :
  String.rev (String c s) = String.rev s +:+ String c EmptyString.
Proof. unfold String.rev at 1. simpl. apply string_rev_app_append. Qed.

Lemma string_rev_append (a b : string) :
  String.rev (a +:+ b) = String.rev b +:+ String.rev a.
Proof.
  induction a as [|c a IH].
  - symmetry. apply string_append_nil_r.
  - rewrite string_append_cons, !string_rev_cons, IH. apply string_append_assoc.
Qed.

Lemma string_rev_involutive (s : string) : String.rev (String.rev s) = s.
Proof.
  induction s as [|c s IH]; [reflexivity|].
  rewrite string_rev_cons, string_rev_append, IH. reflexivity.
Qed.

Lemma lstrip_starts (s : string) : starts_with_space (lstrip s) = false.
Proof.
  induction s as [|c s IH]; simpl; [reflexivity|].
  destruct (is_space c) eqn:Hc; [exact IH|]. simpl. exact Hc.
Qed.

(** [lstrip] drops a prefix. *)
Lemma lstrip_suffix (s : string) : exists w, s = w +:+ lstrip s.
Proof.
  induction s as [|c s [w IH]]; simpl.
  - by exists EmptyString.
  - destruct (is_space c).
    + exists (String c w). rewrite string_append_cons. by rewrite <- IH.
    + by exists EmptyString.
Qed.

Lemma strip_ends (s : string) : ends_with_space (strip s) = false.
Proof.
  unfold ends_with_space, strip, rstrip.
  rewrite string_rev_involutive. apply lstrip_starts.
Qed.

Lemma strip_starts (s : string) : starts_with_space (strip s) = false.
Proof.
  unfold strip, rstrip.
  pose proof (lstrip_starts s) as Ht. set (t := lstrip s) in *.
  destruct (lstrip_suffix (String.rev t)) as [w Hw].
  apply (f_equal String.rev) in Hw.
  rewrite string_rev_involutive, string_rev_append in Hw.
  destruct (String.rev (lstrip (String.rev t))) as [|c x]; [reflexivity|].
  rewrite Hw in Ht. exact Ht.
Qed.

Lemma strip_idempotent (s : string) : strip (strip s) = strip s.
Proof.
  assert (forall t, starts_with_space t = false -> lstrip t = t) as Hfix.
  { intros [|c t]; simpl; [reflexivity|]. by intros ->. }
  pose proof (strip_starts s) as H1. pose proof (strip_ends s) as H2.
  unfold strip at 1, rstrip. rewrite (Hfix _ H1).
  unfold ends_with_space in H2. rewrite (Hfix _ H2).
  apply string_rev_involutive.
Qed.

Section MoreProperties.

Set Default Proof Using "Type".

Variable json_loads_text : string -> result value.
Variable json_dumps : value -> string.
Variable builtin_str : value -> string.
Variable invoke_model : string -> string -> result string.
Variable BEDROCK_MODEL_ID : string.

Local Abbreviation json_loads := (json_loads json_loads_text).
Local Abbreviation validate_request := (validate_request json_loads_text).
Local Abbreviation extract_prompt := (extract_prompt json_loads_text).
Local Abbreviation create_response := (create_response json_dumps).
Local Abbreviation read_response :=
  (read_response json_loads_text BEDROCK_MODEL_ID).
Local Abbreviation except_clauses := (except_clauses builtin_str).
Local Abbreviation invoker_result := (invoker_result BEDROCK_MODEL_ID).
Local Abbreviation success_result := (success_result BEDROCK_MODEL_ID).
Local Abbreviation sent prompt :=
  (SentRequest BEDROCK_MODEL_ID (json_dumps (request_body prompt))).
Local Abbreviation remote prompt :=
  (invoke_model BEDROCK_MODEL_ID (json_dumps (request_body prompt))).
Local Abbreviation not_preflight ev :=
  (py_eq_str (default VNone (ev !! "httpMethod")) "OPTIONS" = false).
Local Abbreviation invoke_bedrock_model :=
  (invoke_bedrock_model json_loads_text json_dumps builtin_str invoke_model
     BEDROCK_MODEL_ID).
Local Abbreviation lambda_handler :=
  (lambda_handler json_loads_text json_dumps builtin_str invoke_model
     BEDROCK_MODEL_ID).

(** *** The validator, message by message *)

(** What the validator answers once the body has decoded. *)
Lemma validate_request_decoded ev raw body :
  ev !! "body" = Some raw -> truthy raw = true ->
  json_loads raw = Ok body ->
  validate_request ev =
    match body with
    | VDict d => prompt_checks d
    | _ => if prompt_lookup_raises body
           then Some "Invalid request format"
           else Some "Missing 'prompt' field in request body"
    end.
Proof.
  intros Hb Ht Hl.
  destruct body as [| b | n | r | s | items | entries];
    try (unfold lambda_function.validate_request,
           lambda_function.validate_request_try;
         rewrite Hb, Ht, Hl; reflexivity).
  - unfold lambda_function.validate_request, lambda_function.validate_request_try.
    rewrite Hb, Ht, Hl. simpl. destruct (str_contains s "prompt"); reflexivity.
  - unfold lambda_function.validate_request, lambda_function.validate_request_try.
    rewrite Hb, Ht, Hl. simpl. destruct (existsb _ items); reflexivity.
  - by eapply validate_request_object.
Qed.

Lemma prompt_checks_messages d m :
  prompt_checks d = Some m ->
  m = "Missing 'prompt' field in request body" /\ dict_get d "prompt" = None \/
  m = "Prompt must be a string" \/
  m = "Prompt cannot be empty" \/
  m = "Prompt exceeds maximum length of 4000 characters".
Proof.
  unfold prompt_checks. intros H.
  destruct (dict_get d "prompt") as [v|]; [|left; by simplify_eq].
  right. repeat case_match; simplify_eq; auto.
Qed.

Lemma validate_request_messages ev m :
  validate_request ev = Some m -> In m validation_messages.
Proof.
  intros Hv.
  destruct (ev !! "body") as [raw|] eqn:Hb.
  2: { rewrite (validate_request_no_body _ _ Hb) in Hv. simplify_eq. simpl. auto. }
  destruct (truthy raw) eqn:Ht.
  2: { rewrite (validate_request_empty_body _ _ _ Hb Ht) in Hv. simplify_eq.
       simpl. auto. }
  destruct (json_loads raw) as [body|e] eqn:Hl.
  2: { rewrite (validate_request_raise _ _ _ _ Hb Ht Hl) in Hv. simplify_eq.
       destruct e; simpl; auto 10. }
  rewrite (validate_request_decoded _ _ _ Hb Ht Hl) in Hv.
  destruct body as [| b | n | r | s | items | entries];
    try (destruct (prompt_lookup_raises _); simplify_eq; simpl; auto 10).
  destruct (prompt_checks_messages _ _ Hv) as [[-> _]|[->|[->| ->]]];
    simpl; auto 10.
Qed.

(** X1.  The validator answers [None] or one of seven fixed messages, and
    each of them is a non-empty text. *)
Theorem validate_request_range (ev : gmap string value) :
  validate_request ev = None \/
  exists m, validate_request ev = Some m /\ In m validation_messages /\
            m <> EmptyString.
Proof.
  destruct (validate_request ev) as [m|] eqn:Hv; [right|by left].
  exists m. split; [reflexivity|].
  pose proof (validate_request_messages _ _ Hv) as Hin.
  split; [exact Hin|].
  intros ->. simpl in Hin.
  repeat (destruct Hin as [Hin|Hin]; [discriminate Hin|]). exact Hin.
Qed.

(** X2.  The validator answers "Request body is required" exactly when the
    event has no body entry or its body is falsy (null, empty text, zero,
    false, an empty list or object). *)
Theorem body_required_iff (ev : gmap string value) :
  validate_request ev = Some "Request body is required" <->
  ev !! "body" = None \/
  exists raw, ev !! "body" = Some raw /\ truthy raw = false.
Proof.
  split.
  - intros Hv.
    destruct (ev !! "body") as [raw|] eqn:Hb; [|by left]. right.
    exists raw. split; [done|].
    destruct (truthy raw) eqn:Ht; [exfalso|done].
    destruct (json_loads raw) as [body|e] eqn:Hl.
    2: { rewrite (validate_request_raise _ _ _ _ Hb Ht Hl) in Hv.
         by destruct e. }
    rewrite (validate_request_decoded _ _ _ Hb Ht Hl) in Hv.
    destruct body as [| b | n | r | s | items | entries];
      try (by destruct (prompt_lookup_raises _)).
    destruct (prompt_checks_messages _ _ Hv) as [[? _]|[?|[?|?]]]; discriminate.
  - intros [Hb|(raw & Hb & Ht)].
    + by apply validate_request_no_body.
    + by eapply validate_request_empty_body.
Qed.

(** X3.  The validator answers "Invalid request format" exactly when the
    body is present and truthy and either decoding raises something other
    than a JSON decode error, or the decoded body is null, a boolean, a
    number, a list with the element "prompt" or a string containing
    "prompt". *)
Theorem invalid_request_format_iff (ev : gmap string value) :
  validate_request ev = Some "Invalid request format" <->
  exists raw,
    ev !! "body" = Some raw /\ truthy raw = true /\
    ((exists e, json_loads raw = Raise e /\ e <> JSONDecodeError) \/
     (exists body, json_loads raw = Ok body /\ prompt_lookup_raises body = true)).
Proof.
  split.
  - intros Hv.
    destruct (ev !! "body") as [raw|] eqn:Hb.
    2: { by rewrite (validate_request_no_body _ _ Hb) in Hv. }
    destruct (truthy raw) eqn:Ht.
    2: { by rewrite (validate_request_empty_body _ _ _ Hb Ht) in Hv. }
    exists raw. split; [done|]. split; [done|].
    destruct (json_loads raw) as [body|e] eqn:Hl.
    + right. exists body. split; [done|].
      rewrite (validate_request_decoded _ _ _ Hb Ht Hl) in Hv.
      destruct body as [| b | n | r | s | items | entries];
        try reflexivity; try (by destruct (prompt_lookup_raises _)).
      destruct (prompt_checks_messages _ _ Hv) as [[? _]|[?|[?|?]]]; discriminate.
    + left. exists e. split; [done|].
      rewrite (validate_request_raise _ _ _ _ Hb Ht Hl) in Hv.
      intros ->. discriminate.
  - intros (raw & Hb & Ht & [(e & Hl & He)|(body & Hl & Hr)]).
    + rewrite (validate_request_raise _ _ _ _ Hb Ht Hl). by destruct e.
    + rewrite (validate_request_decoded _ _ _ Hb Ht Hl).
      destruct body; try discriminate; by rewrite ?Hr.
Qed.

(** X4.  The validator answers "Missing 'prompt' field in request body"
    exactly when the body decodes to an object without the key "prompt",
    to a list without the element "prompt", or to a string that does not
    contain "prompt". *)
Theorem missing_prompt_iff (ev : gmap string value) :
  validate_request ev = Some "Missing 'prompt' field in request body" <->
  exists raw body,
    ev !! "body" = Some raw /\ truthy raw = true /\
    json_loads raw = Ok body /\ prompt_absent body = true.
Proof.
  split.
  - intros Hv.
    destruct (ev !! "body") as [raw|] eqn:Hb.
    2: { by rewrite (validate_request_no_body _ _ Hb) in Hv. }
    destruct (truthy raw) eqn:Ht.
    2: { by rewrite (validate_request_empty_body _ _ _ Hb Ht) in Hv. }
    destruct (json_loads raw) as [body|e] eqn:Hl.
    2: { rewrite (validate_request_raise _ _ _ _ Hb Ht Hl) in Hv. by destruct e. }
    exists raw, body. repeat (split; [done|]).
    rewrite (validate_request_decoded _ _ _ Hb Ht Hl) in Hv.
    destruct body as [| b | n | r | s | items | entries]; simpl in *;
      try discriminate.
    + by destruct (str_contains s "prompt").
    + by destruct (existsb _ items).
    + apply bool_decide_eq_true.
      destruct (prompt_checks_messages _ _ Hv) as [[_ ?]|[?|[?|?]]];
        [assumption|discriminate..].
  - intros (raw & body & Hb & Ht & Hl & Ha).
    rewrite (validate_request_decoded _ _ _ Hb Ht Hl).
    destruct body as [| b | n | r | s | items | entries]; simpl in *;
      try discriminate.
    + by destruct (str_contains s "prompt").
    + by destruct (existsb _ items).
    + apply bool_decide_eq_true in Ha. unfold prompt_checks. by rewrite Ha.
Qed.

(** X16.  The validator accepts an event exactly when its body is a
    non-empty text that decodes to an object whose "prompt" is a string,
    not blank after trimming and at most 4000 characters long. *)
Theorem accepted_iff (ev : gmap string value) :
  validate_request ev = None <->
  exists s d p,
    ev !! "body" = Some (VStr s) /\ s <> EmptyString /\
    json_loads_text s = Ok (VDict d) /\
    dict_get d "prompt" = Some (VStr p) /\
    strip p <> EmptyString /\ (String.length p <= 4000)%nat.
Proof.
  split.
  - intros Hv.
    destruct (validate_request_None _ _ Hv) as (s & d & p & Hb & Hl & Hp & Hs & Hlen).
    exists s, d, p. repeat (split; [done|]). split; [|done].
    intros ->.
    rewrite (validate_request_empty_body _ _ _ Hb eq_refl) in Hv. discriminate.
  - intros (s & d & p & Hb & Hne & Hl & Hp & Hs & Hlen).
    assert (truthy (VStr s) = true) as Ht.
    { simpl. apply negb_true_iff, String.eqb_neq. exact Hne. }
    rewrite (validate_request_object _ _ _ _ Hb Ht Hl). unfold prompt_checks.
    rewrite Hp. apply String.eqb_neq in Hs. rewrite Hs.
    apply Nat.ltb_ge in Hlen. rewrite Hlen. reflexivity.
Qed.

(** *** The invoker, clause by clause *)

Lemma py_getitem_error v k e :
  py_getitem v k = Raise e -> e = KeyError \/ e = TypeError.
Proof.
  destruct v as [| b | n | r | s | items | entries]; simpl;
    try (intros [= <-]; by right).
  destruct (dict_get entries k); [discriminate|]. intros [= <-]. by left.
Qed.

Lemma except_clauses_other e :
  other_exception e = true ->
  except_clauses e = Ok (failure "Internal server error processing AI request").
Proof. destruct e; try discriminate; reflexivity. Qed.

Lemma except_clauses_error e e' :
  except_clauses e = Raise e' -> e' = KeyError \/ e' = TypeError.
Proof.
  destruct e as [| | | | | response | |]; simpl; try discriminate.
  destruct (py_getitem response "Error") as [err|e1] eqn:H1; simpl.
  2: { intros [= <-]. by eapply py_getitem_error. }
  destruct (py_getitem err "Code") as [code|e2] eqn:H2; simpl.
  2: { intros [= <-]. by eapply py_getitem_error. }
  destruct (py_getitem err "Message") as [msg|e3] eqn:H3; simpl.
  2: { intros [= <-]. by eapply py_getitem_error. }
  repeat case_match; discriminate.
Qed.

(** Once the payload has decoded, the rest of the [try] block raises only
    built-in errors. *)
Lemma read_response_error raw rb e :
  json_loads_text raw = Ok rb -> read_response raw = Raise e ->
  builtin_error e = true.
Proof.
  intros Hl. unfold lambda_function.read_response. rewrite Hl. simpl.
  destruct rb as [| b | n | r | s | items | rb]; simpl;
    try (intros [= <-]; reflexivity).
  - destruct (str_contains s "content"); simpl; intros [= <-]; reflexivity.
  - destruct (existsb _ items); simpl; intros [= <-]; reflexivity.
  - destruct (dict_get rb "content") as [c|] eqn:Hc; simpl; [|discriminate].
    destruct c as [| b | n | r | s | items | d]; simpl;
      try (intros [= <-]; reflexivity).
    + destruct s as [|ch s]; simpl; [discriminate|]. intros [= <-]. reflexivity.
    + destruct items as [|item items]; simpl; [discriminate|].
      destruct (py_getitem item "text") as [text|e'] eqn:Ht; simpl; [discriminate|].
      intros [= <-]. by destruct (py_getitem_error _ _ _ Ht) as [-> | ->].
    + destruct d; simpl; [discriminate|]. intros [= <-]. reflexivity.
Qed.

(** A success result comes from a response of the expected shape. *)
Lemma read_response_success raw v :
  read_response raw = Ok v -> py_getitem v "success" = Ok (VBool true) ->
  exists rb item rest text,
    json_loads_text raw = Ok (VDict rb) /\
    dict_get rb "content" = Some (VList (VDict item :: rest)) /\
    dict_get item "text" = Some text /\
    v = success_result text (default (VDict []) (dict_get rb "usage")).
Proof.
  unfold lambda_function.read_response.
  destruct (json_loads_text raw) as [rb|]; simpl; [|discriminate].
  destruct rb as [| b | n | r | s | items | rb]; simpl; try discriminate.
  - destruct (str_contains s "content"); simpl; [discriminate|].
    intros [= <-]. discriminate.
  - destruct (existsb _ items); simpl; [discriminate|].
    intros [= <-]. discriminate.
  - destruct (dict_get rb "content") as [c|] eqn:Hc; simpl.
    2: { intros [= <-]. discriminate. }
    destruct c as [| b | n | r | s | items | d]; simpl; try discriminate.
    + destruct s as [|ch s]; simpl; [intros [= <-]|]; discriminate.
    + destruct items as [|item items]; simpl.
      { intros [= <-]. discriminate. }
      destruct item as [| b | n | r | s | l | item]; simpl; try discriminate.
      destruct (dict_get item "text") as [text|] eqn:Ht; simpl; [|discriminate].
      intros [= <-] _. exists rb, item, items, text. done.
    + destruct d; simpl; [intros [= <-]|]; discriminate.
Qed.

Lemma except_clauses_no_success e v :
  except_clauses e = Ok v -> py_getitem v "success" = Ok (VBool false).
Proof.
  destruct e as [| | | | | response | |]; simpl;
    try (intros [= <-]; reflexivity).
  destruct (py_getitem response "Error") as [err|]; simpl; [|discriminate].
  destruct (py_getitem err "Code") as [code|]; simpl; [|discriminate].
  destruct (py_getitem err "Message") as [msg|]; simpl; [|discriminate].
  repeat case_match; intros [= <-]; reflexivity.
Qed.

Lemma read_response_ok raw v :
  read_response raw = Ok v ->
  (exists text usage, v = success_result text usage) \/
  v = failure "Unexpected response format from AI model".
Proof.
  unfold lambda_function.read_response.
  destruct (json_loads_text raw) as [rb|]; simpl; [|discriminate].
  destruct (py_contains rb "content") as [[]|]; simpl; try discriminate.
  - destruct (py_getitem rb "content") as [c|]; simpl; [|discriminate].
    destruct (py_len c) as [n|]; simpl; [|discriminate].
    destruct (0 <? n)%nat; simpl.
    + destruct (py_first c) as [item|]; simpl; [|discriminate].
      destruct (py_getitem item "text") as [text|]; simpl; [|discriminate].
      destruct (py_get rb "usage" (VDict [])) as [usage|]; simpl; [|discriminate].
      intros [= <-]. left. by eauto.
    + intros [= <-]. by right.
  - intros [= <-]. by right.
Qed.

(** X5.  A transport or configuration failure of the remote call
    ([BotoCoreError]) makes the invoker return the failure "Network or
    configuration error accessing Bedrock service", and the handler, on an
    accepted event carrying that prompt, answers 500 with that message. *)
Theorem transport_failure_message prompt :
  remote prompt = Raise BotoCoreError ->
  invoke_bedrock_model prompt =
    ([sent prompt],
     Ok (failure "Network or configuration error accessing Bedrock service")) /\
  forall ev : gmap string value,
    not_preflight ev -> validate_request ev = None ->
    extract_prompt ev = Ok prompt ->
    lambda_handler ev =
      ([RanValidator ev; RanInvoker prompt; sent prompt],
       Ok (create_response 500
             (VDict [("error", VStr "Internal Server Error");
                     ("message",
                      VStr "Network or configuration error accessing Bedrock service")])
             None)).
Proof.
  intros Hr.
  assert (invoke_bedrock_model prompt =
            ([sent prompt],
             Ok (failure "Network or configuration error accessing Bedrock service")))
    as Hi.
  { rewrite invoke_bedrock_model_eq, Hr. reflexivity. }
  split; [exact Hi|].
  intros ev H Hv Hx. apply lambda_handler_ok.
  apply lambda_handler_try_failure; try assumption.
  rewrite Hi. reflexivity.
Qed.

(** X6.  Once the remote payload has decoded, the invoker raises nothing:
    it returns the success result, or one of the two failures "Unexpected
    response format from AI model" and "Internal server error processing
    AI request". *)
Theorem decoded_response_never_raises prompt raw rb :
  remote prompt = Ok raw ->
  json_loads_text raw = Ok rb ->
  (exists text usage,
      invoke_bedrock_model prompt = ([sent prompt], Ok (success_result text usage))) \/
  invoke_bedrock_model prompt =
    ([sent prompt], Ok (failure "Unexpected response format from AI model")) \/
  invoke_bedrock_model prompt =
    ([sent prompt], Ok (failure "Internal server error processing AI request")).
Proof.
  intros Hr Hl. rewrite invoke_bedrock_model_eq, Hr.
  destruct (read_response raw) as [v|e] eqn:Hread.
  - destruct (read_response_ok _ _ Hread) as [(text & usage & ->)| ->];
      [left; by eauto | right; by left].
  - right. right.
    pose proof (read_response_error _ _ _ Hl Hread) as He.
    rewrite except_clauses_other; [reflexivity|]. by destruct e.
Qed.

(** X7.  The last [except] clause: the invoker returns the failure
    "Internal server error processing AI request" when the remote call
    raises anything but a service or transport error, when the payload is
    not JSON, when it decodes to null, a boolean or a number, and when the
    first content item is not an object holding "text". *)
Theorem malformed_response_is_internal_error prompt :
  (exists e, remote prompt = Raise e /\ other_exception e = true) \/
  (exists raw,
      remote prompt = Ok raw /\
      (json_loads_text raw = Raise JSONDecodeError \/
       (exists body, json_loads_text raw = Ok body /\ is_scalar body = true) \/
       (exists rb item rest,
           json_loads_text raw = Ok (VDict rb) /\
           dict_get rb "content" = Some (VList (item :: rest)) /\
           key_value item "text" = None))) ->
  invoke_bedrock_model prompt =
    ([sent prompt], Ok (failure "Internal server error processing AI request")).
Proof.
  rewrite invoke_bedrock_model_eq.
  intros [(e & -> & He) | (raw & -> & Hraw)].
  { by rewrite except_clauses_other. }
  assert (exists e, read_response raw = Raise e /\ other_exception e = true)
    as (e & -> & He); [|by rewrite except_clauses_other].
  unfold lambda_function.read_response.
  destruct Hraw as [-> | [(body & -> & Hs) | (rb & item & rest & -> & Hc & Ht)]];
    simpl.
  - by eauto.
  - destruct body; try discriminate; simpl; by eauto.
  - rewrite Hc. simpl.
    destruct item as [| b | n | r | s | l | item]; simpl; try by eauto.
    simpl in Ht. rewrite Ht. by eauto.
Qed.

(** X8.  Whatever its docstring says, the invoker raises neither a service
    error nor a transport error: an exception that leaves it is a
    [KeyError] or a [TypeError], raised while reading the entries of a
    service error. *)
Theorem invoker_raises_only_lookup_errors prompt e :
  snd (invoke_bedrock_model prompt) = Raise e ->
  (e = KeyError \/ e = TypeError) /\
  exists response,
    remote prompt = Raise (ClientError response) \/
    exists raw, remote prompt = Ok raw /\
                read_response raw = Raise (ClientError response).
Proof.
  rewrite invoke_bedrock_model_eq. simpl.
  assert (forall e0, except_clauses e0 = Raise e ->
                     exists response, e0 = ClientError response) as Hc.
  { intros e0 H. destruct e0; try discriminate. by eauto. }
  destruct (remote prompt) as [raw|e0].
  - destruct (read_response raw) as [v|e0] eqn:Hread; [discriminate|].
    intros H. split; [by eapply except_clauses_error|].
    destruct (Hc _ H) as [response ->]. by eauto.
  - intros H. split; [by eapply except_clauses_error|].
    destruct (Hc _ H) as [response ->]. by eauto.
Qed.

(** X9.  A service error whose response lacks the "Error" entry, or whose
    "Error" object lacks "Code" or "Message", makes the invoker raise
    [KeyError] - also for a known code - and the handler, on an accepted
    event carrying that prompt, answers 500 "An unexpected error
    occurred". *)
Theorem incomplete_service_error_escapes prompt response :
  remote prompt = Raise (ClientError (VDict response)) ->
  incomplete_error response ->
  invoke_bedrock_model prompt = ([sent prompt], Raise KeyError) /\
  forall ev : gmap string value,
    not_preflight ev -> validate_request ev = None ->
    extract_prompt ev = Ok prompt ->
    lambda_handler ev =
      ([RanValidator ev; RanInvoker prompt; sent prompt],
       Ok (create_response 500
             (VDict [("error", VStr "Internal Server Error");
                     ("message", VStr "An unexpected error occurred")])
             None)).
Proof.
  intros Hr Hinc.
  assert (invoke_bedrock_model prompt = ([sent prompt], Raise KeyError)) as Hi.
  { rewrite invoke_bedrock_model_eq, Hr. simpl.
    destruct Hinc as [-> | (error & -> & [Hc | Hm])]; simpl; [reflexivity|..].
    - rewrite Hc. reflexivity.
    - destruct (dict_get error "Code"); simpl; [|reflexivity].
      rewrite Hm. reflexivity. }
  split; [exact Hi|].
  intros ev H Hv Hx. eapply lambda_handler_raise.
  - apply lambda_handler_try_raise; try eassumption. rewrite Hi. reflexivity.
  - discriminate.
Qed.

(** X10.  The invoker reports success only for a response of the expected
    shape: the payload decodes to an object whose content is a list that
    starts with an object holding "text"; the result then carries that
    text and the response's usage. *)
Theorem success_needs_first_content_item prompt v :
  snd (invoke_bedrock_model prompt) = Ok v ->
  py_getitem v "success" = Ok (VBool true) ->
  exists raw rb item rest text,
    remote prompt = Ok raw /\
    json_loads_text raw = Ok (VDict rb) /\
    dict_get rb "content" = Some (VList (VDict item :: rest)) /\
    dict_get item "text" = Some text /\
    v = success_result text (default (VDict []) (dict_get rb "usage")).
Proof.
  rewrite invoke_bedrock_model_eq. simpl. intros Hv Hs.
  destruct (remote prompt) as [raw|e].
  2: { rewrite (except_clauses_no_success _ _ Hv) in Hs. discriminate. }
  destruct (read_response raw) as [v'|e] eqn:Hread.
  2: { rewrite (except_clauses_no_success _ _ Hv) in Hs. discriminate. }
  injection Hv as ->.
  destruct (read_response_success _ _ Hread Hs)
    as (rb & item & rest & text & Hl & Hc & Ht & ->).
  exists raw, rb, item, rest, text. done.
Qed.

(** *** The handler, outcome by outcome *)

Local Abbreviation cors_body :=
  (VDict [("message", VStr "CORS preflight successful")]).
Local Abbreviation bad_request m :=
  (VDict [("error", VStr "Bad Request"); ("message", VStr m)]).
Local Abbreviation server_error m :=
  (VDict [("error", VStr "Internal Server Error"); ("message", VStr m)]).
Local Abbreviation success_body text usage :=
  (VDict [("message", VStr "Success"); ("response", text);
          ("model_id", VStr BEDROCK_MODEL_ID); ("usage", usage)]).

(** The three ways a run of the handler goes. *)
Lemma lambda_handler_cases ev :
  (py_eq_str (default VNone (ev !! "httpMethod")) "OPTIONS" = true /\
   lambda_handler ev = ([], Ok (create_response 200 cors_body None))) \/
  (not_preflight ev /\
   exists m, validate_request ev = Some m /\
     lambda_handler ev =
       ([RanValidator ev], Ok (create_response 400 (bad_request m) None))) \/
  (not_preflight ev /\ validate_request ev = None /\
   exists p,
     extract_prompt ev = Ok (strip p) /\ strip p <> EmptyString /\
     (String.length p <= 4000)%nat /\
     ((exists text usage,
          lambda_handler ev =
            ([RanValidator ev; RanInvoker (strip p); sent (strip p)],
             Ok (create_response 200 (success_body text usage) None))) \/
      (exists m,
          lambda_handler ev =
            ([RanValidator ev; RanInvoker (strip p); sent (strip p)],
             Ok (create_response 500 (server_error m) None))))).
Proof.
  destruct (py_eq_str (default VNone (ev !! "httpMethod")) "OPTIONS") eqn:H.
  { left. split; [reflexivity|].
    by apply lambda_handler_ok, lambda_handler_try_preflight. }
  right.
  destruct (validate_request ev) as [m|] eqn:Hv.
  { left. split; [reflexivity|]. exists m. split; [reflexivity|].
    by apply lambda_handler_ok, lambda_handler_try_rejected. }
  right. split; [reflexivity|]. split; [reflexivity|].
  destruct (validate_request_None _ _ Hv) as (s & d & p & Hb & Hl & Hp & Hs & Hlen).
  pose proof (extract_prompt_valid _ _ _ _ _ Hb Hl Hp) as Hx.
  exists p. repeat (split; [assumption|]).
  pose proof (invoke_bedrock_model_result json_loads_text json_dumps builtin_str
                invoke_model BEDROCK_MODEL_ID (strip p)) as Hr.
  inversion Hr as [text usage Hi | message Hi | e He Hi]; symmetry in Hi.
  - left. exists text, usage.
    by apply lambda_handler_ok, lambda_handler_try_success.
  - right. exists message.
    by apply lambda_handler_ok, lambda_handler_try_failure.
  - right. exists "An unexpected error occurred".
    eapply lambda_handler_raise; [|exact He].
    by apply lambda_handler_try_raise.
Qed.

(** X11.  When the validator rejects an event that is not a preflight, the
    handler answers 400 "Bad Request" with the validator's message, and
    does nothing else: the invoker is not run and no request is sent. *)
Theorem rejected_request_is_answered_400 (ev : gmap string value) m :
  not_preflight ev ->
  validate_request ev = Some m ->
  lambda_handler ev =
    ([RanValidator ev], Ok (create_response 400 (bad_request m) None)).
Proof.
  intros H Hv. by apply lambda_handler_ok, lambda_handler_try_rejected.
Qed.

(** X12.  A 400 answer always comes from the validator: the event is not
    a preflight, the validator rejected it, the body carries the
    validator's message and only the validator ran.  The handler's own
    [except json.JSONDecodeError] clause never produces the answer. *)
Theorem bad_request_only_from_validator (ev : gmap string value) t env :
  lambda_handler ev = (t, Ok env) ->
  statusCode env = 400 ->
  not_preflight ev /\
  exists m,
    validate_request ev = Some m /\
    t = [RanValidator ev] /\
    env = create_response 400 (bad_request m) None.
Proof.
  intros Hh Hsc.
  destruct (lambda_handler_cases ev)
    as [[_ H] | [(Hn & m & Hv & H) | (_ & _ & p & _ & _ & _ & [(? & ? & H) | (? & H)])]];
    rewrite H in Hh; simplify_eq; try discriminate Hsc.
  split; [assumption|]. by exists m.
Qed.

(** X13.  A request goes to the remote service only for an event that is
    not a preflight and that the validator accepted; it goes to the
    configured model, its payload is the request body built from the
    extracted prompt, and it is the only request of the run. *)
Theorem request_only_after_validation (ev : gmap string value) model payload :
  In (SentRequest model payload) (fst (lambda_handler ev)) ->
  not_preflight ev /\ validate_request ev = None /\
  model = BEDROCK_MODEL_ID /\
  exists prompt,
    extract_prompt ev = Ok prompt /\
    payload = json_dumps (request_body prompt) /\
    fst (lambda_handler ev) =
      [RanValidator ev; RanInvoker prompt; SentRequest model payload].
Proof.
  destruct (lambda_handler_cases ev)
    as [[_ H] | [(Hn & m & Hv & H) | (Hn & Hv & p & Hx & _ & _ & Hcase)]].
  - rewrite H. simpl. intros [].
  - rewrite H. simpl. intros [? | []]. discriminate.
  - assert (fst (lambda_handler ev) =
              [RanValidator ev; RanInvoker (strip p); sent (strip p)]) as Hlog.
    { destruct Hcase as [(? & ? & ->) | (? & ->)]; reflexivity. }
    rewrite Hlog. simpl.
    intros [? | [? | [[= <- <-] | []]]]; try discriminate.
    repeat (split; [done|]). by exists (strip p).
Qed.

(** X14.  The prompt the invoker is run on is never empty, never longer
    than 4000 characters, and already trimmed: it has no whitespace at
    either end and [strip] leaves it unchanged. *)
Theorem invoked_prompt_is_clean (ev : gmap string value) prompt :
  In (RanInvoker prompt) (fst (lambda_handler ev)) ->
  prompt <> EmptyString /\
  (String.length prompt <= 4000)%nat /\
  starts_with_space prompt = false /\
  ends_with_space prompt = false /\
  strip prompt = prompt.
Proof.
  destruct (lambda_handler_cases ev)
    as [[_ H] | [(Hn & m & Hv & H) | (Hn & Hv & p & Hx & Hs & Hlen & Hcase)]].
  - rewrite H. simpl. intros [].
  - rewrite H. simpl. intros [? | []]. discriminate.
  - assert (fst (lambda_handler ev) =
              [RanValidator ev; RanInvoker (strip p); sent (strip p)]) as Hlog.
    { destruct Hcase as [(? & ? & ->) | (? & ->)]; reflexivity. }
    rewrite Hlog. simpl.
    intros [? | [[= <-] | [? | []]]]; try discriminate.
    split; [exact Hs|]. split.
    { etransitivity; [apply strip_length|exact Hlen]. }
    split; [apply strip_starts|]. split; [apply strip_ends|].
    apply strip_idempotent.
Qed.

(** X15.  The body of every answer has the shape that goes with its
    status: 200 carries the preflight acknowledgement or the "Success"
    message with response, model identifier and usage; 400 carries "Bad
    Request" and one of the validator's seven messages; 500 carries
    "Internal Server Error" and a text message. *)
Theorem response_shape_by_status (ev : gmap string value) :
  exists t status_code body,
    lambda_handler ev = (t, Ok (create_response status_code body None)) /\
    ((status_code = 200 /\
      (body = cors_body \/ exists text usage, body = success_body text usage)) \/
     (status_code = 400 /\
      exists m, body = bad_request m /\ In m validation_messages) \/
     (status_code = 500 /\ exists m, body = server_error m)).
Proof.
  destruct (lambda_handler_cases ev)
    as [[_ H] | [(Hn & m & Hv & H) | (_ & _ & p & _ & _ & _ & [(text & usage & H) | (m & H)])]];
    rewrite H; do 3 eexists; (split; [reflexivity|]).
  - left. split; [reflexivity|]. by left.
  - right. left. split; [reflexivity|]. exists m. split; [reflexivity|].
    by eapply validate_request_messages.
  - left. split; [reflexivity|]. right. by eauto.
  - right. right. split; [reflexivity|]. by eauto.
Qed.

End MoreProperties.

(** ** The further properties on concrete events *)

Import Examples MoreExamples.

Lemma transport_failure_message_witness :
  invoker (fails BotoCoreError) "Hello" =
    ([SentRequest model_id (Json.dumps (request_body "Hello"))],
     Ok (failure "Network or configuration error accessing Bedrock service")) /\
  handler (fails BotoCoreError) (post_prompt "Hello") =
    ([RanValidator (post_prompt "Hello"); RanInvoker "Hello";
      SentRequest model_id (Json.dumps (request_body "Hello"))],
     Ok (create_response Json.dumps 500
           (VDict [("error", VStr "Internal Server Error");
                   ("message",
                    VStr "Network or configuration error accessing Bedrock service")])
           None)).
Proof.
  destruct (transport_failure_message Json.loads Json.dumps Repr.str
              (fails BotoCoreError) model_id "Hello") as [Hi Hh].
  - reflexivity.
  - split; [exact Hi|]. apply Hh; vm_compute; reflexivity.
Defined.

Lemma decoded_response_never_raises_witness :
  (exists text usage,
      invoker (replies bare_text_reply) "Hello" =
        ([SentRequest model_id (Json.dumps (request_body "Hello"))],
         Ok (success_result model_id text usage))) \/
  invoker (replies bare_text_reply) "Hello" =
    ([SentRequest model_id (Json.dumps (request_body "Hello"))],
     Ok (failure "Unexpected response format from AI model")) \/
  invoker (replies bare_text_reply) "Hello" =
    ([SentRequest model_id (Json.dumps (request_body "Hello"))],
     Ok (failure "Internal server error processing AI request")).
Proof.
  apply (decoded_response_never_raises Json.loads Json.dumps Repr.str
           (replies bare_text_reply) model_id "Hello"
           (Json.dumps bare_text_reply) bare_text_reply).
  - reflexivity.
  - vm_compute. reflexivity.
Defined.

Lemma malformed_response_is_internal_error_witness :
  invoker (replies bare_text_reply) "Hello" =
    ([SentRequest model_id (Json.dumps (request_body "Hello"))],
     Ok (failure "Internal server error processing AI request")).
Proof.
  apply (malformed_response_is_internal_error Json.loads Json.dumps Repr.str
           (replies bare_text_reply) model_id "Hello").
  right. exists (Json.dumps bare_text_reply). split; [reflexivity|].
  right. right. exists [("content", VList [VStr "Hello!"])], (VStr "Hello!"), [].
  split; [vm_compute; reflexivity|]. split; reflexivity.
Defined.

Lemma invoker_raises_only_lookup_errors_witness :
  (KeyError = KeyError \/ KeyError = TypeError) /\
  exists response,
    fails (ClientError (VDict [])) model_id (Json.dumps (request_body "Hello"))
      = Raise (ClientError response) \/
    exists raw,
      fails (ClientError (VDict [])) model_id (Json.dumps (request_body "Hello"))
        = Ok raw /\
      read_response Json.loads model_id raw = Raise (ClientError response).
Proof.
  apply (invoker_raises_only_lookup_errors Json.loads Json.dumps Repr.str
           (fails (ClientError (VDict []))) model_id "Hello" KeyError).
  vm_compute. reflexivity.
Defined.

Lemma incomplete_service_error_escapes_witness :
  invoker (fails (ClientError (VDict error_without_message))) "Hello" =
    ([SentRequest model_id (Json.dumps (request_body "Hello"))], Raise KeyError) /\
  handler (fails (ClientError (VDict error_without_message))) (post_prompt "Hello") =
    ([RanValidator (post_prompt "Hello"); RanInvoker "Hello";
      SentRequest model_id (Json.dumps (request_body "Hello"))],
     Ok (create_response Json.dumps 500
           (VDict [("error", VStr "Internal Server Error");
                   ("message", VStr "An unexpected error occurred")])
           None)).
Proof.
  destruct (incomplete_service_error_escapes Json.loads Json.dumps Repr.str
              (fails (ClientError (VDict error_without_message))) model_id
              "Hello" error_without_message) as [Hi Hh].
  - reflexivity.
  - right. exists [("Code", VStr "AccessDeniedException")].
    split; [reflexivity|]. right. reflexivity.
  - split; [exact Hi|]. apply Hh; vm_compute; reflexivity.
Defined.

Lemma success_needs_first_content_item_witness :
  exists raw rb item rest text,
    replies hello_reply model_id (Json.dumps (request_body "Hello")) = Ok raw /\
    Json.loads raw = Ok (VDict rb) /\
    dict_get rb "content" = Some (VList (VDict item :: rest)) /\
    dict_get item "text" = Some text /\
    success_result model_id (VStr "Hello! How can I help you today?")
      (VDict [("input_tokens", VInt 10); ("output_tokens", VInt 15)]) =
    success_result model_id text (default (VDict []) (dict_get rb "usage")).
Proof.
  apply (success_needs_first_content_item Json.loads Json.dumps Repr.str
           (replies hello_reply) model_id "Hello").
  - vm_compute. reflexivity.
  - reflexivity.
Defined.

Lemma rejected_request_is_answered_400_witness :
  handler (replies hello_reply) number_body =
    ([RanValidator number_body],
     Ok (create_response Json.dumps 400
           (VDict [("error", VStr "Bad Request");
                   ("message", VStr "Invalid request format")]) None)).
Proof.
  apply (rejected_request_is_answered_400 Json.loads Json.dumps Repr.str
           (replies hello_reply) model_id number_body).
  - vm_compute. reflexivity.
  - vm_compute. reflexivity.
Defined.

Lemma bad_request_only_from_validator_witness :
  py_eq_str (default VNone (number_body !! "httpMethod")) "OPTIONS" = false /\
  exists m,
    validate number_body = Some m /\
    [RanValidator number_body] = [RanValidator number_body] /\
    create_response Json.dumps 400
      (VDict [("error", VStr "Bad Request");
              ("message", VStr "Invalid request format")]) None =
    create_response Json.dumps 400
      (VDict [("error", VStr "Bad Request"); ("message", VStr m)]) None.
Proof.
  apply (bad_request_only_from_validator Json.loads Json.dumps Repr.str
           (replies hello_reply) model_id number_body).
  - vm_compute. reflexivity.
  - reflexivity.
Defined.

Lemma request_only_after_validation_witness :
  py_eq_str (default VNone (post_prompt "  Hello " !! "httpMethod")) "OPTIONS" = false /\
  validate (post_prompt "  Hello ") = None /\
  model_id = model_id /\
  exists prompt,
    extract_prompt Json.loads (post_prompt "  Hello ") = Ok prompt /\
    Json.dumps (request_body "Hello") = Json.dumps (request_body prompt) /\
    fst (handler (replies hello_reply) (post_prompt "  Hello ")) =
      [RanValidator (post_prompt "  Hello "); RanInvoker prompt;
       SentRequest model_id (Json.dumps (request_body "Hello"))].
Proof.
  apply (request_only_after_validation Json.loads Json.dumps Repr.str
           (replies hello_reply) model_id (post_prompt "  Hello ")).
  vm_compute. right. right. left. reflexivity.
Defined.

Lemma invoked_prompt_is_clean_witness :
  "Hello" <> EmptyString /\
  (String.length "Hello" <= 4000)%nat /\
  starts_with_space "Hello" = false /\
  ends_with_space "Hello" = false /\
  strip "Hello" = "Hello".
Proof.
  apply (invoked_prompt_is_clean Json.loads Json.dumps Repr.str
           (replies hello_reply) model_id (post_prompt "  Hello ") "Hello").
  vm_compute. right. left. reflexivity.
Defined.
